(** * A shallow embedding of check_mysql_health.py

    The plugin keeps its whole run in one [MySQLServer] object: an overall
    state (an int ratchet), three message buckets, a perf-data list and the
    snapshot of [SHOW GLOBAL VARIABLES] / [SHOW GLOBAL STATUS] /
    [SHOW SLAVE STATUS].  Methods mutate that object; we thread it
    explicitly.  Python exceptions are modelled by the [py] error monad. *)

From Stdlib Require Import ZArith QArith Qround String Ascii List Lia.
From stdpp Require Import base gmap strings list.

Open Scope string_scope.
Open Scope Z_scope.

(* ------------------------------------------------------------------ *)
(** ** Python exceptions and values *)

(** The exceptions the modelled code can raise. [DbError] is a
    [MySQLdb] error carrying [(errno, message)] in its args. *)
Inductive pyexc :=
| TypeError
| ValueError
| IndexError
| KeyError
| DbError (errno : Z) (errmsg : string)
| ZeroDivisionError
| ConnectException (errno : Z) (errmsg : string).

Inductive py (A : Type) :=
| Ok (a : A)
| Raise (e : pyexc).
Arguments Ok {A} a.
Arguments Raise {A} e.

Definition py_bind {A B} (m : py A) (k : A -> py B) : py B :=
  match m with
  | Ok a => k a
  | Raise e => Raise e
  end.

Notation "'let!' x := m 'in' k" := (py_bind m (fun x => k))
  (at level 200, x name, m at level 100, k at level 200).

(** The dynamically typed values the code does arithmetic on. Column values
    of [SHOW GLOBAL VARIABLES] arrive as [VStr]; integer columns of
    [SHOW SLAVE STATUS] and [COUNT( * )] arrive as [VInt]. *)
Inductive pyval :=
| VInt (z : Z)
| VStr (s : string)
| VNone.

(** [str * int] in Python 2 repeats the string. *)
Fixpoint str_repeat (n : nat) (s : string) : string :=
  match n with
  | O => ""
  | S n' => s ++ str_repeat n' s
  end.

(** Python 2 [*] on the values above. *)
Definition py_mul (a b : pyval) : py pyval :=
  match a, b with
  | VInt x, VInt y => Ok (VInt (x * y))
  | VInt n, VStr s | VStr s, VInt n => Ok (VStr (str_repeat (Z.to_nat n) s))
  | _, _ => Raise TypeError
  end.

(** Python 2 [-] on the values above; only [int - int] is defined, and
    it yields an int. *)
Definition py_sub (a b : pyval) : py Z :=
  match a, b with
  | VInt x, VInt y => Ok (x - y)
  | _, _ => Raise TypeError
  end.

(* ------------------------------------------------------------------ *)
(** ** The [MySQLServer] object *)

(** [state_ok = 0], [state_warning = 1], [state_critical = 2],
    [state_unknown = 3]. *)
Definition state_ok : nat := 0.
Definition state_warning : nat := 1.
Definition state_critical : nat := 2.
Definition state_unknown : nat := 3.

(** The mutable part of the object the checks report into:
    [self._state], [self._messages] and [self._perf_data]. *)
Record server := mkServer {
  _state : nat;
  msgs_ok : list string;
  msgs_warning : list string;
  msgs_critical : list string;
  _perf_data : list string
}.

(** [__init__]: [_state = state_ok], empty buckets, empty perf data. *)
Definition server_init : server := mkServer state_ok [] [] [] [].

(** [_set_state]: [if state >= self._state: self._state = state]. *)
Definition _set_state (st : nat) (s : server) : server :=
  if Nat.leb (_state s) st
  then mkServer st (msgs_ok s) (msgs_warning s) (msgs_critical s) (_perf_data s)
  else s.

(** [self._messages[bucket].append(m)] for the three buckets, and
    [self._perf_data.append(p)]. *)
Definition append_ok (m : string) (s : server) : server :=
  mkServer (_state s) (msgs_ok s ++ [m]) (msgs_warning s) (msgs_critical s) (_perf_data s).
Definition append_warning (m : string) (s : server) : server :=
  mkServer (_state s) (msgs_ok s) (msgs_warning s ++ [m]) (msgs_critical s) (_perf_data s).
Definition append_critical (m : string) (s : server) : server :=
  mkServer (_state s) (msgs_ok s) (msgs_warning s) (msgs_critical s ++ [m]) (_perf_data s).
Definition append_perf (p : string) (s : server) : server :=
  mkServer (_state s) (msgs_ok s) (msgs_warning s) (msgs_critical s) (_perf_data s ++ [p]).

(** A sequence of [_set_state] calls, in call order. *)
Definition set_states (l : list nat) (s : server) : server :=
  fold_left (fun acc st => _set_state st acc) l s.

(* ------------------------------------------------------------------ *)
(** ** String helpers: [str(int)], [s.split('.')], [int(s)] *)

Fixpoint digits_of_pos (fuel : nat) (n : N) (acc : string) : string :=
  match fuel with
  | O => acc
  | S f =>
      let d := N.modulo n 10 in
      let c := ascii_of_N (48 + d) in
      let q := N.div n 10 in
      if N.eqb q 0 then String c acc else digits_of_pos f q (String c acc)
  end.

(** [str(z)] for a Python int. *)
Definition z2s (z : Z) : string :=
  let body := digits_of_pos (S (Pos.to_nat (Pos.size (Z.to_pos (Z.abs z + 1)))))
                            (Z.to_N (Z.abs z)) "" in
  if Z.ltb z 0 then "-" ++ body else body.

(** [s.split(c)]: the pieces between occurrences of [c]. *)
Fixpoint split_on (c : ascii) (s : string) : list string :=
  match s with
  | EmptyString => [""]
  | String a r =>
      let rest := split_on c r in
      if Ascii.eqb a c then "" :: rest
      else match rest with
           | h :: t => String a h :: t
           | [] => [String a ""]
           end
  end.

Definition digit_val (a : ascii) : option Z :=
  let n := Z.of_N (N_of_ascii a) in
  if (Z.leb 48 n && Z.leb n 57)%bool then Some (n - 48)%Z else None.

Fixpoint digits_val (s : string) (acc : Z) : option Z :=
  match s with
  | EmptyString => Some acc
  | String a r =>
      match digit_val a with
      | Some d => digits_val r (10 * acc + d)
      | None => None
      end
  end.

(** [int(s)] on a string: an optional sign followed by at least one
    decimal digit, otherwise [ValueError]. Python also strips surrounding
    whitespace; binlog file names carry none. *)
Definition py_int (s : string) : py Z :=
  let unsigned (t : string) :=
    match t with
    | EmptyString => None
    | _ => digits_val t 0
    end in
  let r := match s with
           | String "-" t => option_map Z.opp (unsigned t)
           | String "+" t => unsigned t
           | _ => unsigned s
           end in
  match r with
  | Some z => Ok z
  | None => Raise ValueError
  end.

(** [l[i]] on a Python list. *)
Definition py_index {A} (l : list A) (i : nat) : py A :=
  match nth_error l i with
  | Some a => Ok a
  | None => Raise IndexError
  end.

(* ------------------------------------------------------------------ *)
(** ** Snapshot: [self._mysql] *)

(** One row of [SHOW SLAVE STATUS] ([self._mysql['slave']]). *)
Record slave_status := mkSlave {
  Relay_Master_Log_File : string;
  Master_Log_File : string;
  Exec_Master_Log_Pos : Z;
  Seconds_Behind_Master : option Z;
  Slave_SQL_Running : string;
  Slave_IO_Running : string;
  Last_Errno : Z;
  Master_Host : string;
  Master_Port : Z
}.

(** [self._mysql['variables']]: [Variable_name -> Value], both strings. *)
Abbreviation variables := (gmap string string).

(** [self._mysql['variables'].get(k)] as a Python value. *)
Definition var_get (vars : variables) (k : string) : pyval :=
  match vars !! k with
  | Some v => VStr v
  | None => VNone
  end.

(* ------------------------------------------------------------------ *)
(** ** Replication lag: [_diff_binlog_master_slave], [_get_replication_lag] *)

(** The loop over [self._master._master_logs()]: rows
    [(Log_name, File_size)], with the running [master_log_ahead] and the
    [slave_logfile_matched] flag. *)
Fixpoint master_log_ahead_loop (relay : string) (logs : list (string * Z))
         (matched : bool) (ahead : Z) : Z :=
  match logs with
  | [] => ahead
  | (name, size) :: rest =>
      if String.eqb name relay || matched
      then master_log_ahead_loop relay rest true (ahead + size)
      else master_log_ahead_loop relay rest matched ahead
  end.

(** The [not slave_status_only] branch. *)
Definition diff_binlog_primary (slave : slave_status) (logs : list (string * Z)) : Z :=
  master_log_ahead_loop (Relay_Master_Log_File slave) logs false 0
  - Exec_Master_Log_Pos slave.

(** The [slave_status_only] branch (the fallback estimate). *)
Definition diff_binlog_fallback (vars : variables) (slave : slave_status) : py Z :=
  let max_binlog_size := var_get vars "max_binlog_size" in
  let! f1 := py_index (split_on "." (Master_Log_File slave)) 1 in
  let! master_logfile_nr := py_int f1 in
  let! f2 := py_index (split_on "." (Relay_Master_Log_File slave)) 1 in
  let! slave_logfile_nr := py_int f2 in
  let logfile_nr_offset := master_logfile_nr - slave_logfile_nr in
  if 0 <? logfile_nr_offset then
    let! prod := py_mul (VInt logfile_nr_offset) max_binlog_size in
    py_sub prod (VInt (Exec_Master_Log_Pos slave))
  else Ok 0.

(** What [_connect_master] leaves in [self._master]: [None] when
    [MySQLServer(master_connection)] raised (the exception is swallowed),
    otherwise a master whose [_master_logs()] query yields the given rows
    or raises. *)
Inductive master_conn :=
| MasterUnavailable
| MasterConnected (master_logs : py (list (string * Z))).

(** [_get_replication_lag] after [_connect_master]. *)
Definition _get_replication_lag (vars : variables) (slave : slave_status)
           (m : master_conn) : py Z :=
  match m with
  | MasterConnected logs =>
      let! l := logs in Ok (diff_binlog_primary slave l)
  | MasterUnavailable => diff_binlog_fallback vars slave
  end.

(* ------------------------------------------------------------------ *)
(** ** [pretty_time] *)

(** ["%d" % n] for a non-negative int. *)
Definition fmt_d (z : Z) : string := z2s z.

(** [pretty_time(seconds)] on an int. *)
Definition pretty_time (seconds : Z) : string :=
  let sign_string := if seconds <? 0 then "-" else "" in
  let secs := Z.abs seconds in
  let days := secs / 86400 in
  let secs := secs mod 86400 in
  let hours := secs / 3600 in
  let secs := secs mod 3600 in
  let minutes := secs / 60 in
  let secs := secs mod 60 in
  if 0 <? days then
    sign_string ++ fmt_d days ++ "d" ++ fmt_d hours ++ "h" ++ fmt_d minutes ++ "m"
                ++ fmt_d secs ++ "s"
  else if 0 <? hours then
    sign_string ++ fmt_d hours ++ "h" ++ fmt_d minutes ++ "m" ++ fmt_d secs ++ "s"
  else if 0 <? minutes then
    sign_string ++ fmt_d minutes ++ "m" ++ fmt_d secs ++ "s"
  else sign_string ++ fmt_d secs ++ "s".

(* ------------------------------------------------------------------ *)
(** ** [check_replication] *)

(** [lag_seconds]: [Seconds_Behind_Master], with [None] read as -1. *)
Definition lag_seconds_of (sl : slave_status) : Z :=
  match Seconds_Behind_Master sl with
  | None => -1
  | Some z => z
  end.

Section Replication.

(** [pretty_size] renders a byte count through a float logarithm and
    float division; the claims about this check only concern where its
    result goes, so it is a parameter here. *)
Variable pretty_size : Z -> string.

(** [check_replication]. [slave] is [Some row] iff [self._is_slave]; the
    master connection outcome is what [_connect_master] produced. *)
Definition check_replication (vars : variables) (slave : option slave_status)
           (m : master_conn)
           (threshold_seconds_warning threshold_seconds_critical
            threshold_bytes_warning threshold_bytes_critical : Z)
           (ignore_readonly_warning : bool) (s : server) : py server :=
  match slave with
  | None => Ok s
  | Some sl =>
      let read_only := vars !! "read_only" in
      let slave_sql_thread := Slave_SQL_Running sl in
      let slave_io_thread := Slave_IO_Running sl in
      let slave_err := Last_Errno sl in
      let master_host := Master_Host sl in
      let master_port := Master_Port sl in
      let! lag_bytes := _get_replication_lag vars sl m in
      let s := append_perf ("replication_lag_bytes=" ++ z2s lag_bytes ++ "b;"
                            ++ z2s threshold_bytes_warning ++ ";"
                            ++ z2s threshold_bytes_critical) s in
      let lag_seconds := lag_seconds_of sl in
      let s := append_perf ("replication_lag_seconds=" ++ z2s lag_seconds ++ "s;"
                            ++ z2s threshold_seconds_warning ++ ";"
                            ++ z2s threshold_seconds_critical) s in
      let s := if negb (String.eqb slave_sql_thread "Yes") then
                 let s := _set_state state_critical
                            (append_critical "Replication SQL Thread is down" s) in
                 if negb (Z.eqb slave_err 0)
                 then append_critical ("Last Error: " ++ z2s slave_err) s
                 else s
               else s in
      let s := if negb (String.eqb slave_io_thread "Yes") then
                 _set_state state_critical
                   (append_critical "Replication IO Thread is down" s)
               else s in
      let s := if negb ignore_readonly_warning
                  && negb (bool_decide (read_only = Some "ON")) then
                 _set_state state_warning
                   (append_warning "Slave is not operating in read only mode" s)
               else s in
      let msg := "Replication Master " ++ master_host ++ ":" ++ z2s master_port
                 ++ " Slave lag " ++ pretty_time lag_seconds ++ "/"
                 ++ pretty_size lag_bytes in
      let s := if threshold_bytes_critical <=? lag_bytes then
                 _set_state state_critical (append_critical msg s)
               else if threshold_bytes_warning <=? lag_bytes then
                 _set_state state_warning (append_warning msg s)
               else s in
      let s := if threshold_seconds_critical <=? lag_seconds then
                 _set_state state_critical (append_critical msg s)
               else if threshold_seconds_warning <=? lag_seconds then
                 _set_state state_warning (append_warning msg s)
               else append_ok msg s in
      Ok s
  end.

(** The summary line [check_replication] builds. *)
Definition replication_summary (sl : slave_status) (lag_bytes : Z) : string :=
  let lag_seconds := lag_seconds_of sl in
  "Replication Master " ++ Master_Host sl ++ ":" ++ z2s (Master_Port sl)
  ++ " Slave lag " ++ pretty_time lag_seconds ++ "/" ++ pretty_size lag_bytes.

End Replication.

(* ------------------------------------------------------------------ *)
(** ** Threshold checks *)

(** [float(v)] on a value holding an integer (the server reports
    [Threads_running] and [innodb_thread_concurrency] as integer strings);
    the float is kept as the integer it equals. *)
Definition py_float_int (v : pyval) : py Z :=
  match v with
  | VInt z => Ok z
  | VStr s => py_int s
  | VNone => Raise TypeError
  end.

(** [round(x, 2)] (Python 2 rounds halves away from zero), in hundredths;
    float arithmetic is modelled by exact rationals. *)
Definition round2_centi (x : Q) : Z :=
  let y := Qmult x (inject_Z 100) in
  if Qle_bool (inject_Z 0) y then Qfloor (Qplus y (1 # 2))
  else - Qfloor (Qplus (Qopp y) (1 # 2)).

(** [str(f)] of a float holding [k / 100]: digits of the integer part,
    then the shortest non-empty fraction. *)
Definition fmt_centi (k : Z) : string :=
  let sign := if k <? 0 then "-" else "" in
  let a := Z.abs k in
  let ip := a / 100 in
  let fp := a mod 100 in
  let frac := if fp =? 0 then "0"
              else if fp mod 10 =? 0 then z2s (fp / 10)
              else if fp <? 10 then "0" ++ z2s fp
              else z2s fp in
  sign ++ z2s ip ++ "." ++ frac.

(** [check_threads_usage]; [status] is [self._mysql['status']]. *)
Definition check_threads_usage (status vars : variables) (warning critical : Z)
           (s : server) : py server :=
  let running_v := match status !! "Threads_running" with
                   | Some v => VStr v
                   | None => VInt 0
                   end in
  let! threads_running := py_float_int running_v in
  let! thread_concurrency := py_float_int (var_get vars "innodb_thread_concurrency") in
  if thread_concurrency =? 0 then Ok s
  else
    let thread_usage := round2_centi
          (Qmult (Qdiv (inject_Z threads_running) (inject_Z thread_concurrency))
                 (inject_Z 100)) in
    let s := append_perf ("thread_usage=" ++ fmt_centi thread_usage ++ "%;"
                          ++ z2s warning ++ ";" ++ z2s critical) s in
    let msg := "Thread usage " ++ fmt_centi thread_usage ++ "% "
               ++ "Threads running " ++ z2s threads_running ++ ".0 "
               ++ "Thread concurrency " ++ z2s thread_concurrency ++ ".0 " in
    if critical * 100 <=? thread_usage then
      Ok (_set_state state_critical (append_critical msg s))
    else if warning * 100 <=? thread_usage then
      Ok (_set_state state_warning (append_warning msg s))
    else Ok (append_ok msg s).

(** [_slave_hosts]: [len(self._run_query("SHOW SLAVE HOSTS"))], given the
    outcome of that query. [check_slave_connections]: *)
Definition check_slave_connections (slave_hosts : py Z) (warning critical : Z)
           (s : server) : py server :=
  if (warning =? -1) || (critical =? -1) then Ok s
  else
    let! slaves := slave_hosts in
    let s := append_perf ("slaves_connected=" ++ z2s slaves ++ ";" ++ z2s warning
                          ++ ";" ++ z2s critical) s in
    let msg := "Slave connected " ++ z2s slaves in
    if slaves <=? critical then Ok (_set_state state_critical (append_critical msg s))
    else if slaves <=? warning then Ok (_set_state state_warning (append_warning msg s))
    else Ok (append_ok msg s).

(** The SQL [check_user_connections] sends. *)
Definition user_connections_query (username : string) : string :=
  let q := "SELECT COUNT(*) AS count FROM information_schema.processlist "
           ++ "WHERE User NOT IN ('system user')" in
  if String.eqb username "" then q
  else q ++ " AND User = '" ++ username ++ "'".

(** The message [check_user_connections] records. *)
Definition user_connections_msg (username : string) (count warning critical : Z)
  : string :=
  "User " ++ username ++ " has " ++ z2s count ++ " connections (w:"
  ++ z2s warning ++ " c:" ++ z2s critical ++ ")".

(** [check_user_connections]; [run_query_one q] is the [count] column of
    [self._run_query(q, MYSQL_RESULT_FETCH_ONE)], or the exception the
    query raised. *)
Definition check_user_connections (run_query_one : string -> py Z)
           (username alert_level : string) (warning critical : Z)
           (s : server) : py server :=
  let! count := run_query_one (user_connections_query username) in
  let s := append_perf ("user_connected=" ++ z2s count ++ ";" ++ z2s warning
                        ++ ";" ++ z2s critical) s in
  let msg := user_connections_msg username count warning critical in
  if (count <=? critical) && String.eqb alert_level "critical" then
    Ok (_set_state state_critical (append_critical msg s))
  else if count <=? warning then
    Ok (_set_state state_warning (append_warning msg s))
  else Ok (append_ok msg s).

(** [check_heartbeat]; [write] is the outcome of the [DELETE], [INSERT]
    and [commit] block. In the handler, [e[1]] is the message of a
    MySQL error [(errno, message)]; any other exception has no second
    argument and [e[1]] raises [IndexError]. *)
Definition check_heartbeat (vars : variables) (write : py unit) (s : server)
  : py server :=
  if bool_decide (vars !! "read_only" = Some "ON") then Ok s
  else
    let msg := "Heartbeat" in
    let! ms :=
      match write with
      | Ok _ => Ok (msg, s)
      | Raise (DbError _ m) =>
          let msg := msg ++ " failed to update unix timestamp (" ++ m ++ ")" in
          Ok (msg, _set_state state_critical (append_critical msg s))
      | Raise _ => Raise IndexError
      end in
    Ok (_set_state state_ok (append_ok (fst ms) (snd ms))).

(* ------------------------------------------------------------------ *)
(** ** [_print_status] *)

Definition ascii_upper (a : ascii) : ascii :=
  let n := N_of_ascii a in
  if (N.leb 97 n && N.leb n 122)%bool then ascii_of_N (n - 32) else a.

Definition ascii_lower (a : ascii) : ascii :=
  let n := N_of_ascii a in
  if (N.leb 65 n && N.leb n 90)%bool then ascii_of_N (n + 32) else a.

Fixpoint str_lower (s : string) : string :=
  match s with
  | EmptyString => EmptyString
  | String a r => String (ascii_lower a) (str_lower r)
  end.

(** [str.capitalize()]: first character upper case, the rest lower case. *)
Definition capitalize (s : string) : string :=
  match s with
  | EmptyString => EmptyString
  | String a r => String (ascii_upper a) (str_lower r)
  end.

(** [self._messages[key]]: the dict has exactly the keys [ok], [warning]
    and [critical]. *)
Definition bucket (s : server) (key : string) : option (list string) :=
  if String.eqb key "ok" then Some (msgs_ok s)
  else if String.eqb key "warning" then Some (msgs_warning s)
  else if String.eqb key "critical" then Some (msgs_critical s)
  else None.

Definition set_bucket (s : server) (key : string) (l : list string) : server :=
  if String.eqb key "ok" then mkServer (_state s) l (msgs_warning s) (msgs_critical s) (_perf_data s)
  else if String.eqb key "warning" then mkServer (_state s) (msgs_ok s) l (msgs_critical s) (_perf_data s)
  else if String.eqb key "critical" then mkServer (_state s) (msgs_ok s) (msgs_warning s) l (_perf_data s)
  else s.

(** [_print_status(level)]: the printed lines and the object afterwards.
    Every exception it can raise is raised before its first [print]. *)
Definition _print_status (level : string) (s : server) : py (list string * server) :=
  let! first :=
    if String.eqb level "ok" then Ok ("Ok Database Health", s)
    else match bucket s level with
         | None => Raise KeyError
         | Some [] => Raise IndexError
         | Some (m :: rest) =>
             Ok (capitalize level ++ " Database Health - " ++ m, set_bucket s level rest)
         end in
  let s1 := snd first in
  let! rest := match bucket s1 (str_lower level) with
               | Some l => Ok l
               | None => Raise KeyError
               end in
  Ok (app [fst first]
        (app (map (fun m => capitalize level ++ " - " ++ m) rest)
             ["|" ++ String.concat " " (_perf_data s1)]), s1).

(* ------------------------------------------------------------------ *)
(** ** [status] and [main] *)

(** What the server (and its master) answer during the checks. *)
Record world := mkWorld {
  w_status : variables;
  w_variables : variables;
  w_slave : option slave_status;
  w_master : master_conn;
  w_heartbeat_write : py unit;
  w_user_count : string -> py Z;
  w_slave_hosts : py Z
}.

(** The dict [parse_check_args] builds. *)
Record check_args := mkCheckArgs {
  a_check_heartbeat : bool;
  a_check_replication : bool;
  a_replication_lag_seconds_warning : Z;
  a_replication_lag_seconds_critical : Z;
  a_replication_lag_bytes_warning : Z;
  a_replication_lag_bytes_critical : Z;
  a_replication_ignore_readonly_warning : bool;
  a_check_threads : bool;
  a_threads_warning : Z;
  a_threads_critical : Z;
  a_check_user_connections : bool;
  a_user_connections_filter : string;
  a_user_connections_max_alertlevel : string;
  a_user_connections_warning : Z;
  a_user_connections_critical : Z;
  a_check_connections : bool;
  a_check_slave_connections : bool;
  a_slave_connections_warning : Z;
  a_slave_connections_critical : Z;
  a_check_liquibase : bool;
  a_check_definer : bool
}.

Section Status.

(** [pretty_size], and the checks no claim looks into
    ([check_connections], [check_liquibase], [check_definer], with their
    arguments already applied), are parameters. *)
Variable pretty_size : Z -> string.
Variable check_connections_f check_liquibase_f check_definer_f : server -> py server.

Definition run_if (b : bool) (f : server -> py server) (s : server) : py server :=
  if b then f s else Ok s.

(** The checks of [status], in its order. *)
Definition status_checks (w : world) (a : check_args) (s : server) : py server :=
  let! s := run_if (a_check_heartbeat a)
              (check_heartbeat (w_variables w) (w_heartbeat_write w)) s in
  let! s := run_if (a_check_replication a)
              (check_replication pretty_size (w_variables w) (w_slave w) (w_master w)
                 (a_replication_lag_seconds_warning a)
                 (a_replication_lag_seconds_critical a)
                 (a_replication_lag_bytes_warning a)
                 (a_replication_lag_bytes_critical a)
                 (a_replication_ignore_readonly_warning a)) s in
  let! s := run_if (a_check_threads a)
              (check_threads_usage (w_status w) (w_variables w)
                 (a_threads_warning a) (a_threads_critical a)) s in
  let! s := run_if (a_check_user_connections a)
              (check_user_connections (w_user_count w)
                 (a_user_connections_filter a) (a_user_connections_max_alertlevel a)
                 (a_user_connections_warning a) (a_user_connections_critical a)) s in
  let! s := run_if (a_check_connections a) check_connections_f s in
  let! s := run_if (a_check_slave_connections a)
              (check_slave_connections (w_slave_hosts w)
                 (a_slave_connections_warning a) (a_slave_connections_critical a)) s in
  let! s := run_if (a_check_liquibase a) check_liquibase_f s in
  run_if (a_check_definer a) check_definer_f s.

(** [status(check)]: the printed report and the returned exit code. *)
Definition status (w : world) (a : check_args) (s : server) : py (list string * nat) :=
  let! s := status_checks w a s in
  let level := if Nat.eqb (_state s) state_critical then "critical"
               else if Nat.eqb (_state s) state_warning then "warning"
               else "ok" in
  let! out := _print_status level s in
  Ok (fst out, _state (snd out)).

End Status.

(** The [except MySQLServerConnectException] handler of [main], for the
    error code [e.args[0][0]]: the line printed and the exit code. *)
Definition connect_failure_report (errno : Z) (host port : string) : string * Z :=
  if (errno =? 1130) || (errno =? 1045) then
    ("Warning - User is not allowed to connect", Z.of_nat state_warning)
  else if errno =? 2005 then
    ("Unknown - No service is listening on " ++ host ++ ":" ++ port,
     Z.of_nat state_unknown)
  else if errno =? 1227 then
    ("User has unsufficient privileges (REPLICATION SLAVE)", Z.of_nat state_warning)
  else ("Critical - Database Connection failed", Z.of_nat state_critical).

(** [main]: [server = MySQLServer(...)] yields [init]; [run] is
    [server.status(...)]. Printed lines and exit code, or the exception
    that escapes. *)
Definition main {A} (init : py A) (run : A -> py (list string * nat))
           (host port : string) : py (list string * Z) :=
  match py_bind init run with
  | Ok (out, code) => Ok (out, Z.of_nat code)
  | Raise (ConnectException errno _) =>
      let r := connect_failure_report errno host port in
      Ok ([fst r], snd r)
  | Raise e => Raise e
  end.

(* ------------------------------------------------------------------ *)
(** ** Connection parameters and [_connect_master] *)

Module Kwargs.

(** Python dicts live in a heap; an object field holding a dict holds a
    reference to it. *)
Abbreviation loc := positive.
Abbreviation pydict := (gmap string pyval).
Abbreviation heap := (gmap loc pydict).

(** The part of a [MySQLServer] object [_connect_master] touches:
    [self._kwargs] (a reference) and [self._master]. *)
Record master_server := mkMaster {
  master_kwargs_ref : loc
}.

Record session := mkSession {
  kwargs_ref : loc;
  _master : option master_server
}.

(** [MySQLServer(kwargs)]: [self._kwargs = kwargs] stores the reference it
    was given; [MySQLdb.connect( ** kwargs)] reads the dict's entries, and
    [connects d] says whether connecting (and the snapshot queries) with
    entries [d] succeeds. *)
Definition new_server (connects : pydict -> bool) (h : heap) (r : loc)
  : option master_server :=
  match h !! r with
  | Some d => if connects d then Some (mkMaster r) else None
  | None => None
  end.

(** [_connect_master]: [master_connection = self._kwargs], then the two
    item assignments, then [MySQLServer(master_connection)] with any
    exception swallowed. *)
Definition _connect_master (connects : pydict -> bool) (slave : slave_status)
           (h : heap) (self : session) : heap * session :=
  let master_connection := kwargs_ref self in
  match h !! master_connection with
  | None => (h, self)
  | Some d =>
      let d := <["host" := VStr (Master_Host slave)]> d in
      let d := <["port" := VInt (Master_Port slave)]> d in
      let h := <[master_connection := d]> h in
      match new_server connects h master_connection with
      | Some m => (h, mkSession (kwargs_ref self) (Some m))
      | None => (h, self)
      end
  end.

End Kwargs.

(* ------------------------------------------------------------------ *)
(** ** The lag as the spec describes it *)

(** The master logs from the first file named [name] to the end of the
    list (empty when no file has that name). *)
Fixpoint logs_from (name : string) (logs : list (string * Z)) : list (string * Z) :=
  match logs with
  | [] => []
  | (n, sz) :: rest => if String.eqb n name then logs else logs_from name rest
  end.

Definition sum_sizes (logs : list (string * Z)) : Z :=
  fold_right (fun e acc => snd e + acc) 0 logs.

(* ------------------------------------------------------------------ *)
(** ** Fixtures *)

(** Scenario E: the replica applies [mysql-bin.000009], has executed it up
    to its end at 500000, and the master has since written
    [mysql-bin.000010]. *)
Definition scenario_e_slave : slave_status := {|
  Relay_Master_Log_File := "mysql-bin.000009";
  Master_Log_File := "mysql-bin.000010";
  Exec_Master_Log_Pos := 500000;
  Seconds_Behind_Master := Some 0;
  Slave_SQL_Running := "Yes";
  Slave_IO_Running := "Yes";
  Last_Errno := 0;
  Master_Host := "db-master";
  Master_Port := 3306
|}.

Definition scenario_e_logs : list (string * Z) :=
  [("mysql-bin.000008", 1073741824); ("mysql-bin.000009", 500000);
   ("mysql-bin.000010", 1048576)].

(** [SHOW GLOBAL VARIABLES] of a read-only replica with the default
    [max_binlog_size]. *)
Definition replica_vars : variables :=
  <["read_only" := "ON"]> (<["max_binlog_size" := "1073741824"]>
  (<["innodb_thread_concurrency" := "20"]> ∅)).

(** The defaults of [parse_cmd_args] with only the replication check
    switched on. *)
Definition replication_only_args : check_args := {|
  a_check_heartbeat := false;
  a_check_replication := true;
  a_replication_lag_seconds_warning := 600;
  a_replication_lag_seconds_critical := 1800;
  a_replication_lag_bytes_warning := 52428800;
  a_replication_lag_bytes_critical := 104857600;
  a_replication_ignore_readonly_warning := false;
  a_check_threads := false;
  a_threads_warning := 60;
  a_threads_critical := 95;
  a_check_user_connections := false;
  a_user_connections_filter := "root";
  a_user_connections_max_alertlevel := "warning";
  a_user_connections_warning := 20;
  a_user_connections_critical := 5;
  a_check_connections := false;
  a_check_slave_connections := false;
  a_slave_connections_warning := -1;
  a_slave_connections_critical := 0;
  a_check_liquibase := false;
  a_check_definer := false
|}.

(** The Scenario E replica whose master cannot be reached. *)
Definition replica_world_no_master : world := {|
  w_status := <["Threads_running" := "10"]> ∅;
  w_variables := replica_vars;
  w_slave := Some scenario_e_slave;
  w_master := MasterUnavailable;
  w_heartbeat_write := Ok tt;
  w_user_count := fun _ => Ok 3;
  w_slave_hosts := Ok 1
|}.

(** [pretty_size] on byte counts below 1024 (["%.0f B"]), and a check that
    changes nothing, to fill the parameters of [status] in fixtures. *)
Definition bytes_text (z : Z) : string := z2s z ++ " B".
Definition pass_check (s : server) : py server := Ok s.

(** [status] with the user-connection and slave-host checks switched on
    (slave hosts: warning 1, critical 0). *)
Definition user_and_slave_args : check_args := {|
  a_check_heartbeat := false;
  a_check_replication := false;
  a_replication_lag_seconds_warning := 600;
  a_replication_lag_seconds_critical := 1800;
  a_replication_lag_bytes_warning := 52428800;
  a_replication_lag_bytes_critical := 104857600;
  a_replication_ignore_readonly_warning := false;
  a_check_threads := false;
  a_threads_warning := 60;
  a_threads_critical := 95;
  a_check_user_connections := true;
  a_user_connections_filter := "root";
  a_user_connections_max_alertlevel := "warning";
  a_user_connections_warning := 20;
  a_user_connections_critical := 5;
  a_check_connections := false;
  a_check_slave_connections := true;
  a_slave_connections_warning := 1;
  a_slave_connections_critical := 0;
  a_check_liquibase := false;
  a_check_definer := false
|}.

Definition processlist_denied : pyexc :=
  DbError 1142 "SELECT command denied to user 'nagios'@'localhost' for table 'processlist'".

(** A server on which the processlist query is refused. *)
Definition processlist_denied_world : world := {|
  w_status := <["Threads_running" := "10"]> ∅;
  w_variables := replica_vars;
  w_slave := None;
  w_master := MasterUnavailable;
  w_heartbeat_write := Ok tt;
  w_user_count := fun _ => Raise processlist_denied;
  w_slave_hosts := Ok 1
|}.

(** [check] with the heartbeat check switched off. *)
Definition disable_heartbeat (a : check_args) : check_args := {|
  a_check_heartbeat := false;
  a_check_replication := a_check_replication a;
  a_replication_lag_seconds_warning := a_replication_lag_seconds_warning a;
  a_replication_lag_seconds_critical := a_replication_lag_seconds_critical a;
  a_replication_lag_bytes_warning := a_replication_lag_bytes_warning a;
  a_replication_lag_bytes_critical := a_replication_lag_bytes_critical a;
  a_replication_ignore_readonly_warning := a_replication_ignore_readonly_warning a;
  a_check_threads := a_check_threads a;
  a_threads_warning := a_threads_warning a;
  a_threads_critical := a_threads_critical a;
  a_check_user_connections := a_check_user_connections a;
  a_user_connections_filter := a_user_connections_filter a;
  a_user_connections_max_alertlevel := a_user_connections_max_alertlevel a;
  a_user_connections_warning := a_user_connections_warning a;
  a_user_connections_critical := a_user_connections_critical a;
  a_check_connections := a_check_connections a;
  a_check_slave_connections := a_check_slave_connections a;
  a_slave_connections_warning := a_slave_connections_warning a;
  a_slave_connections_critical := a_slave_connections_critical a;
  a_check_liquibase := a_check_liquibase a;
  a_check_definer := a_check_definer a
|}.

(** The object after [check_heartbeat] caught a MySQL error with message
    [m]. *)
Definition heartbeat_failed_msg (m : string) : string :=
  "Heartbeat failed to update unix timestamp (" ++ m ++ ")".

Definition heartbeat_failed (s : server) (m : string) : server :=
  _set_state state_ok (append_ok (heartbeat_failed_msg m)
    (_set_state state_critical (append_critical (heartbeat_failed_msg m) s))).

(** A replica 700 s behind whose master has 199500000 bytes it has not
    executed yet. *)
Definition lagging_slave : slave_status := {|
  Relay_Master_Log_File := "mysql-bin.000009";
  Master_Log_File := "mysql-bin.000009";
  Exec_Master_Log_Pos := 500000;
  Seconds_Behind_Master := Some 700;
  Slave_SQL_Running := "Yes";
  Slave_IO_Running := "Yes";
  Last_Errno := 0;
  Master_Host := "db-master";
  Master_Port := 3306
|}.

Definition lagging_logs : list (string * Z) := [("mysql-bin.000009", 200000000)].

(** The messages [check_replication] records before the lag comparisons,
    per bucket. *)
Definition sql_down_msgs (sl : slave_status) : list string :=
  if negb (String.eqb (Slave_SQL_Running sl) "Yes")
  then "Replication SQL Thread is down"
       :: (if negb (Z.eqb (Last_Errno sl) 0)
           then ["Last Error: " ++ z2s (Last_Errno sl)] else [])
  else [].

Definition io_down_msgs (sl : slave_status) : list string :=
  if negb (String.eqb (Slave_IO_Running sl) "Yes")
  then ["Replication IO Thread is down"] else [].

Definition replication_thread_msgs (sl : slave_status) : list string :=
  app (sql_down_msgs sl) (io_down_msgs sl).

Definition replication_readonly_msgs (vars : variables) (ignore : bool) : list string :=
  if negb ignore && negb (bool_decide (vars !! "read_only" = Some "ON"))
  then ["Slave is not operating in read only mode"] else [].

(** The successive [if] blocks of [check_replication], one function each. *)
Definition stage_sql (sl : slave_status) (s : server) : server :=
  if negb (String.eqb (Slave_SQL_Running sl) "Yes") then
    let s := _set_state state_critical (append_critical "Replication SQL Thread is down" s) in
    if negb (Z.eqb (Last_Errno sl) 0)
    then append_critical ("Last Error: " ++ z2s (Last_Errno sl)) s
    else s
  else s.

Definition stage_io (sl : slave_status) (s : server) : server :=
  if negb (String.eqb (Slave_IO_Running sl) "Yes") then
    _set_state state_critical (append_critical "Replication IO Thread is down" s)
  else s.

Definition stage_ro (vars : variables) (ignore : bool) (s : server) : server :=
  if negb ignore && negb (bool_decide (vars !! "read_only" = Some "ON")) then
    _set_state state_warning (append_warning "Slave is not operating in read only mode" s)
  else s.

Definition stage_bytes (tbw tbc lb : Z) (msg : string) (s : server) : server :=
  if tbc <=? lb then _set_state state_critical (append_critical msg s)
  else if tbw <=? lb then _set_state state_warning (append_warning msg s)
  else s.

Definition stage_seconds (tsw tsc ls : Z) (msg : string) (s : server) : server :=
  if tsc <=? ls then _set_state state_critical (append_critical msg s)
  else if tsw <=? ls then _set_state state_warning (append_warning msg s)
  else append_ok msg s.

(* ------------------------------------------------------------------ *)
(** ** The snapshot dicts: [_global_variables], [_global_status] *)

(** [self._mysql['variables'] = dict()], then
    [update({row['Variable_name']: row['Value']})] for each row of the
    query, in order ([_global_status] is the same on its own query). *)
Definition load_variables (rows : list (string * string)) : variables :=
  fold_left (fun d row => <[fst row := snd row]> d) rows ∅.

(* ------------------------------------------------------------------ *)
(** ** [check_connections] *)

(** [float(d.get(k, 0))] on a snapshot dict, for integer values. *)
Definition get_float0 (d : variables) (k : string) : py Z :=
  py_float_int (match d !! k with
                | Some v => VStr v
                | None => VInt 0
                end).

(** ['{}'.format(v)]. *)
Definition py_str (v : pyval) : string :=
  match v with
  | VInt z => z2s z
  | VStr t => t
  | VNone => "None"
  end.

(** Python 2 [x >= v] for a float [x] equal to [k / 100]: numeric against
    an int; a number compares below every string and above [None]. *)
Definition py2_ge_centi (k : Z) (v : pyval) : bool :=
  match v with
  | VInt z => z * 100 <=? k
  | VStr _ => false
  | VNone => true
  end.

(** [check_connections]. [warning] is an int ([type=int]); [critical] is
    [args.connections_critical], which has no [type=int]: the int default
    95, or the string given on the command line. *)
Definition check_connections (status vars : variables) (warning : Z) (critical : pyval)
           (s : server) : py server :=
  let! threads_connected := get_float0 status "Threads_connected" in
  let! max_connections := get_float0 vars "max_connections" in
  if max_connections =? 0 then Raise ZeroDivisionError
  else
    let connection_usage := round2_centi
          (Qmult (Qdiv (inject_Z threads_connected) (inject_Z max_connections))
                 (inject_Z 100)) in
    let s := append_perf ("connection_usage=" ++ fmt_centi connection_usage ++ "%;"
                          ++ z2s warning ++ ";" ++ py_str critical) s in
    let msg := "Connections used " ++ fmt_centi connection_usage ++ "% "
               ++ "Threads connected " ++ z2s threads_connected ++ ".0 "
               ++ "Max connections " ++ z2s max_connections ++ ".0" in
    if py2_ge_centi connection_usage critical then
      Ok (_set_state state_critical (append_critical msg s))
    else if warning * 100 <=? connection_usage then
      Ok (_set_state state_warning (append_warning msg s))
    else Ok (append_ok msg s).

(* ------------------------------------------------------------------ *)
(** ** [check_liquibase] *)

(** The columns of a lock row the check reads. [SECONDS] is the integer
    [UNIX_TIMESTAMP()-UNIX_TIMESTAMP(LOCKGRANTED)]. *)
Record lock_row := mkLock {
  LOCKEDBY : string;
  SECONDS : Z
}.

(** The query for the lock tables; [database] is [""] when not given
    ([None] and [""] are both false for [if database:]). *)
Definition liquibase_tables_query (database table : string) : string :=
  let q := "SELECT TABLE_NAME, TABLE_SCHEMA FROM information_schema.TABLES WHERE "
           ++ "TABLE_SCHEMA NOT IN ('mysql','information_schema','performance_schema') AND "
           ++ "TABLE_NAME = '" ++ table ++ "'" in
  let q := if String.eqb database "" then q
           else q ++ " AND TABLE_SCHEMA = '" ++ database ++ "'" in
  if String.eqb table "" then q
  else q ++ " AND TABLE_NAME = '" ++ table ++ "'".

Definition liquibase_lock_query (schema name : string) : string :=
  "SELECT LOCKGRANTED, LOCKEDBY, (UNIX_TIMESTAMP()-UNIX_TIMESTAMP(LOCKGRANTED)) AS SECONDS "
  ++ "FROM `" ++ schema ++ "`.`" ++ name ++ "` WHERE LOCKGRANTED IS NOT NULL".

(** The first loop: for each row [(TABLE_NAME, TABLE_SCHEMA)] one
    [FETCH_ONE] query; a row found is kept with its [DATABASE]. *)
Fixpoint collect_locks (run_one : string -> py (option lock_row))
         (tables : list (string * string)) : py (list (lock_row * string)) :=
  match tables with
  | [] => Ok []
  | (name, schema) :: rest =>
      let! result := run_one (liquibase_lock_query schema name) in
      let! locks := collect_locks run_one rest in
      Ok (match result with
          | Some r => (r, schema) :: locks
          | None => locks
          end)
  end.

Definition liquibase_lock_msg (lock : lock_row * string) : string :=
  "Liquibase lock held by " ++ LOCKEDBY (fst lock) ++ " in " ++ snd lock
  ++ " for " ++ z2s (SECONDS (fst lock)) ++ " seconds".

(** The body of the second loop: two independent [if]s. *)
Definition liquibase_report (warning critical : Z) (s : server)
           (lock : lock_row * string) : server :=
  let msg := liquibase_lock_msg lock in
  let s := if critical <=? SECONDS (fst lock)
           then _set_state state_critical (append_critical msg s) else s in
  if warning <=? SECONDS (fst lock)
  then _set_state state_warning (append_warning msg s) else s.

(** [check_liquibase]; [run_all] and [run_one] answer [_run_query] with
    [FETCH_ALL] and [FETCH_ONE]. *)
Definition check_liquibase (run_all : string -> py (list (string * string)))
           (run_one : string -> py (option lock_row))
           (database table : string) (warning critical : Z) (s : server)
  : py server :=
  let! lock_tables := run_all (liquibase_tables_query database table) in
  let! ls :=
    match lock_tables with
    | [] => Ok ([], _set_state state_warning
                      (append_warning ("Liquibase lock table " ++ table ++ " not found") s))
    | _ :: _ => let! locks := collect_locks run_one lock_tables in Ok (locks, s)
    end in
  let s := fold_left (liquibase_report warning critical) (fst ls) (snd ls) in
  Ok (if Nat.eqb (_state s) state_ok then append_ok "Liquibase locks" s else s).

(* ------------------------------------------------------------------ *)
(** ** [check_definer] *)

(** A [for] loop whose body may raise. *)
Fixpoint py_fold {A B} (f : A -> B -> py A) (l : list B) (a : A) : py A :=
  match l with
  | [] => Ok a
  | x :: r => let! a' := f a x in py_fold f r a'
  end.

Fixpoint str_upper (s : string) : string :=
  match s with
  | EmptyString => EmptyString
  | String a r => String (ascii_upper a) (str_upper r)
  end.

Definition definer_users_query : string := "SELECT User,Host FROM mysql.user".

Definition definer_query (target : string) : string :=
  "SELECT SUBSTRING_INDEX(DEFINER, '@', '1') AS User,"
  ++ "SUBSTRING_INDEX(DEFINER,'@',-1) AS Host "
  ++ "FROM information_schema." ++ str_upper target ++ " GROUP BY User, Host".

(** [users]: account name to the list of its hosts. *)
Abbreviation accounts := (gmap string (list string)).

(** [if user in d: d[user].append(host) else: d[user] = [host]], the
    update of [users] and the body of [add_broken] on [broken[target]]. *)
Definition add_account (d : accounts) (row : string * string) : accounts :=
  match d !! fst row with
  | Some hosts => <[fst row := app hosts [snd row]]> d
  | None => <[fst row := [snd row]]> d
  end.

Definition load_users (rows : list (string * string)) : accounts :=
  fold_left add_account rows ∅.

(** [broken]: target to its broken definers. *)
Abbreviation broken_map := (gmap string accounts).

Definition add_broken (user host target : string) (broken : broken_map) : py broken_map :=
  match broken !! target with
  | Some bt => Ok (<[target := add_account bt (user, host)]> broken)
  | None => Raise KeyError
  end.

(** The body of the inner loop over the definers of [target]. *)
Definition definer_row (users : accounts) (target : string) (broken : broken_map)
           (row : string * string) : py broken_map :=
  match users !! fst row with
  | Some hosts =>
      if existsb (String.eqb (snd row)) hosts then Ok broken
      else add_broken (fst row) (snd row) target broken
  | None => add_broken (fst row) (snd row) target broken
  end.

(** [broken = {x: {} for x in targets}], then the two loops filling it. *)
Definition definer_broken (run_all : string -> py (list (string * string)))
           (targets : list string) : py broken_map :=
  let broken := fold_left (fun b x => <[x := ∅]> b) targets ∅ in
  let! user_rows := run_all definer_users_query in
  let users := load_users user_rows in
  py_fold (fun b target =>
             let! rows := run_all (definer_query target) in
             py_fold (definer_row users target) rows b)
          targets broken.

Section Definer.

(** [str(broken[target])], a Python 2 dict repr whose key order follows
    the string hashes; a parameter. *)
Variable dict_repr : accounts -> string.

(** [check_definer]. *)
Definition check_definer (run_all : string -> py (list (string * string)))
           (targets : list string) (s : server) : py server :=
  let! broken := definer_broken run_all targets in
  let s := append_ok ("Definer for " ++ String.concat "/" targets) s in
  py_fold (fun s target =>
             match broken !! target with
             | Some bt =>
                 if Nat.ltb 0 (size bt) then
                   Ok (_set_state state_warning
                         (append_warning ("Definer [" ++ dict_repr bt ++ "] in "
                                          ++ target ++ " is broken") s))
                 else Ok s
             | None => Raise KeyError
             end)
          targets s.

End Definer.

(* ------------------------------------------------------------------ *)
(** ** [parse_connection_args] *)

(** A value of the dict handed to [MySQLdb.connect]: an argument value, or
    the nested [ssl] dict. *)
Inductive connval :=
| CVal (v : pyval)
| CDict (d : gmap string pyval).

Definition valid_ssl_params : list string :=
  ["ssl_key"; "ssl_cert"; "ssl_ca"; "ssl_capath"].

Definition valid_connection_params : list string :=
  app ["host"; "user"; "passwd"; "read_default_file"; "db"; "port"; "connect_timeout"]
      valid_ssl_params.

(** Python truth of an argument value. *)
Definition py_truthy (v : pyval) : bool :=
  match v with
  | VInt z => negb (z =? 0)
  | VStr t => negb (String.eqb t "")
  | VNone => false
  end.

Fixpoint str_has (c : ascii) (s : string) : bool :=
  match s with
  | EmptyString => false
  | String a r => Ascii.eqb a c || str_has c r
  end.

(** [s.lstrip(chars)]: drop leading characters that occur in [chars]. *)
Fixpoint py_lstrip (chars s : string) : string :=
  match s with
  | EmptyString => EmptyString
  | String a r => if str_has a chars then py_lstrip chars r else s
  end.

(** The loop over [vars(args)]: the connection dict and the [ssl] dict. *)
Definition connection_step (acc : gmap string connval * gmap string pyval)
           (arg_value : string * pyval) : gmap string connval * gmap string pyval :=
  let arg := fst arg_value in
  let value := snd arg_value in
  if existsb (String.eqb arg) valid_connection_params then
    if py_truthy value then
      if existsb (String.eqb arg) valid_ssl_params
      then (fst acc, <[py_lstrip "ssl_" arg := value]> (snd acc))
      else (<[arg := CVal value]> (fst acc), snd acc)
    else acc
  else acc.

(** [parse_connection_args]; [args] lists the attributes of the
    namespace with their values. *)
Definition parse_connection_args (args : list (string * pyval)) : gmap string connval :=
  let acc := fold_left connection_step args (∅, ∅) in
  if Nat.ltb 0 (size (snd acc)) then <["ssl" := CDict (snd acc)]> (fst acc)
  else fst acc.

(* ------------------------------------------------------------------ *)
(** ** Predicates and fixtures used by the further properties *)

(** [s'] extends [s]: the state is not lower, and the messages and the
    performance data only had entries appended. *)
Definition grows (s s' : server) : Prop :=
  (_state s <= _state s')%nat /\
  msgs_ok s `prefix_of` msgs_ok s' /\
  msgs_warning s `prefix_of` msgs_warning s' /\
  msgs_critical s `prefix_of` msgs_critical s' /\
  _perf_data s `prefix_of` _perf_data s'.

(** [_print_status] can report [s]: the state is a valid exit code, and a
    WARNING or CRITICAL state has a message to put in the first line. *)
Definition reportable (s : server) : Prop :=
  (_state s <= state_critical)%nat /\
  (_state s = state_critical -> msgs_critical s <> []) /\
  (_state s = state_warning -> msgs_warning s <> []).

(** A check run from [s] to [s'] only appends and keeps [s] reportable. *)
Definition keeps (s s' : server) : Prop :=
  grows s s' /\ (reportable s -> reportable s').

(** The value a later row gives a name overrides an earlier one. *)
Fixpoint last_value (k : string) (rows : list (string * string)) : option string :=
  match rows with
  | [] => None
  | (a, b) :: r =>
      match last_value k r with
      | Some v => Some v
      | None => if String.eqb a k then Some b else None
      end
  end.



(** The argument names [parse_connection_args] nests under ssl, and the
    ones it copies as they are. *)
Definition sslb (a : string) : bool := existsb (String.eqb a) valid_ssl_params.
Definition plainb (a : string) : bool :=
  existsb (String.eqb a) valid_connection_params && negb (sslb a).

Definition all_checks_args : check_args := {|
  a_check_heartbeat := true;
  a_check_replication := true;
  a_replication_lag_seconds_warning := 600;
  a_replication_lag_seconds_critical := 1800;
  a_replication_lag_bytes_warning := 52428800;
  a_replication_lag_bytes_critical := 104857600;
  a_replication_ignore_readonly_warning := false;
  a_check_threads := true;
  a_threads_warning := 60;
  a_threads_critical := 95;
  a_check_user_connections := true;
  a_user_connections_filter := "root";
  a_user_connections_max_alertlevel := "warning";
  a_user_connections_warning := 20;
  a_user_connections_critical := 5;
  a_check_connections := true;
  a_check_slave_connections := true;
  a_slave_connections_warning := -1;
  a_slave_connections_critical := 0;
  a_check_liquibase := true;
  a_check_definer := true
|}.

Definition lagging_world : world := {|
  w_status := <["Threads_connected" := "50"]> (<["Threads_running" := "10"]> ∅);
  w_variables := <["max_connections" := "200"]> replica_vars;
  w_slave := Some lagging_slave;
  w_master := MasterConnected (Ok lagging_logs);
  w_heartbeat_write := Ok tt;
  w_user_count := fun _ => Ok 3;
  w_slave_hosts := Ok 1
|}.

Definition one_lock_table : string -> py (list (string * string)) :=
  fun _ => Ok [("DATABASECHANGELOGLOCK", "app")].
Definition held_lock : string -> py (option lock_row) :=
  fun _ => Ok (Some (mkLock "deployer" 7200)).
Definition no_lock : string -> py (option lock_row) := fun _ => Ok None.

Definition definer_db (q : string) : py (list (string * string)) :=
  if String.eqb q definer_users_query then Ok [("app", "%"); ("root", "localhost")]
  else Ok [("app", "10.0.0.1"); ("root", "localhost")].

Definition empty_repr (d : accounts) : string := "{...}".

Definition sample_connection_args : list (string * pyval) :=
  [("host", VStr "db1"); ("port", VInt 0); ("ssl_ca", VStr "/etc/ca.pem");
   ("ssl_key", VNone); ("check_threads", VInt 1)].

(** A computation that does not raise [MySQLServerConnectException]. *)
Definition not_connect {A} (m : py A) : Prop :=
  match m with
  | Raise (ConnectException _ _) => False
  | _ => True
  end.

(** Every query a check can send fails, if at all, with an exception
    other than [MySQLServerConnectException], which only the constructor
    raises. *)
Definition queries_raise_no_connect (w : world)
           (liquibase_all : string -> py (list (string * string)))
           (liquibase_one : string -> py (option lock_row))
           (definer_all : string -> py (list (string * string))) : Prop :=
  (forall logs, w_master w = MasterConnected logs -> not_connect logs) /\
  (forall q, not_connect (w_user_count w q)) /\
  not_connect (w_slave_hosts w) /\
  (forall q, not_connect (liquibase_all q)) /\
  (forall q, not_connect (liquibase_one q)) /\
  (forall q, not_connect (definer_all q)).

(** [status] with the modelled [check_connections], [check_liquibase] and
    [check_definer], given their arguments. *)
Definition status_checks_all ps cw cc ra ro db tb lw lc dr rd targets w a :=
  status_checks ps (check_connections (w_status w) (w_variables w) cw cc)
    (check_liquibase ra ro db tb lw lc) (check_definer dr rd targets) w a.

Definition status_all ps cw cc ra ro db tb lw lc dr rd targets w a :=
  status ps (check_connections (w_status w) (w_variables w) cw cc)
    (check_liquibase ra ro db tb lw lc) (check_definer dr rd targets) w a.


(* ------------------------------------------------------------------ *)
(** * Properties *)

Example z2s_ex : z2s 1048576 = "1048576" /\ z2s 0 = "0" /\ z2s (-12) = "-12".
Proof. vm_compute. auto. Qed.

Example split_ex : split_on "." "mysql-bin.000010" = ["mysql-bin"; "000010"].
Proof. reflexivity. Qed.

Example py_int_ex : py_int "000010" = Ok 10.
Proof. reflexivity. Qed.

(** ** The state ratchet *)

Lemma _set_state_max (st : nat) (s : server) :
  _state (_set_state st s) = Nat.max (_state s) st.
Proof.
  unfold _set_state. destruct (Nat.leb_spec (_state s) st); simpl; lia.
Qed.

Lemma _set_state_keeps (st : nat) (s : server) :
  msgs_ok (_set_state st s) = msgs_ok s /\
  msgs_warning (_set_state st s) = msgs_warning s /\
  msgs_critical (_set_state st s) = msgs_critical s /\
  _perf_data (_set_state st s) = _perf_data s.
Proof. unfold _set_state. destruct (Nat.leb (_state s) st); auto. Qed.

Lemma set_state_msgs_ok (st : nat) (s : server) : msgs_ok (_set_state st s) = msgs_ok s.
Proof. apply _set_state_keeps. Qed.
Lemma set_state_msgs_warning (st : nat) (s : server) :
  msgs_warning (_set_state st s) = msgs_warning s.
Proof. apply _set_state_keeps. Qed.
Lemma set_state_msgs_critical (st : nat) (s : server) :
  msgs_critical (_set_state st s) = msgs_critical s.
Proof. apply _set_state_keeps. Qed.
Lemma set_state_perf_data (st : nat) (s : server) :
  _perf_data (_set_state st s) = _perf_data s.
Proof. apply _set_state_keeps. Qed.

Create Rewrite HintDb server.
#[export] Hint Rewrite _set_state_max set_state_msgs_ok set_state_msgs_warning
  set_state_msgs_critical set_state_perf_data : server.

Lemma msgs_ok_append_ok (m : string) (s : server) : msgs_ok (append_ok m s) = app (msgs_ok s) [m].
Proof. reflexivity. Qed.
Lemma msgs_warning_append_ok (m : string) (s : server) : msgs_warning (append_ok m s) = msgs_warning s.
Proof. reflexivity. Qed.
Lemma msgs_critical_append_ok (m : string) (s : server) : msgs_critical (append_ok m s) = msgs_critical s.
Proof. reflexivity. Qed.
Lemma perf_data_append_ok (m : string) (s : server) : _perf_data (append_ok m s) = _perf_data s.
Proof. reflexivity. Qed.
Lemma state_append_ok (m : string) (s : server) : _state (append_ok m s) = _state s.
Proof. reflexivity. Qed.
Lemma msgs_ok_append_warning (m : string) (s : server) : msgs_ok (append_warning m s) = msgs_ok s.
Proof. reflexivity. Qed.
Lemma msgs_warning_append_warning (m : string) (s : server) : msgs_warning (append_warning m s) = app (msgs_warning s) [m].
Proof. reflexivity. Qed.
Lemma msgs_critical_append_warning (m : string) (s : server) : msgs_critical (append_warning m s) = msgs_critical s.
Proof. reflexivity. Qed.
Lemma perf_data_append_warning (m : string) (s : server) : _perf_data (append_warning m s) = _perf_data s.
Proof. reflexivity. Qed.
Lemma state_append_warning (m : string) (s : server) : _state (append_warning m s) = _state s.
Proof. reflexivity. Qed.
Lemma msgs_ok_append_critical (m : string) (s : server) : msgs_ok (append_critical m s) = msgs_ok s.
Proof. reflexivity. Qed.
Lemma msgs_warning_append_critical (m : string) (s : server) : msgs_warning (append_critical m s) = msgs_warning s.
Proof. reflexivity. Qed.
Lemma msgs_critical_append_critical (m : string) (s : server) : msgs_critical (append_critical m s) = app (msgs_critical s) [m].
Proof. reflexivity. Qed.
Lemma perf_data_append_critical (m : string) (s : server) : _perf_data (append_critical m s) = _perf_data s.
Proof. reflexivity. Qed.
Lemma state_append_critical (m : string) (s : server) : _state (append_critical m s) = _state s.
Proof. reflexivity. Qed.
Lemma msgs_ok_append_perf (m : string) (s : server) : msgs_ok (append_perf m s) = msgs_ok s.
Proof. reflexivity. Qed.
Lemma msgs_warning_append_perf (m : string) (s : server) : msgs_warning (append_perf m s) = msgs_warning s.
Proof. reflexivity. Qed.
Lemma msgs_critical_append_perf (m : string) (s : server) : msgs_critical (append_perf m s) = msgs_critical s.
Proof. reflexivity. Qed.
Lemma perf_data_append_perf (m : string) (s : server) : _perf_data (append_perf m s) = app (_perf_data s) [m].
Proof. reflexivity. Qed.
Lemma state_append_perf (m : string) (s : server) : _state (append_perf m s) = _state s.
Proof. reflexivity. Qed.
Lemma msgs_ok_if (b : bool) (x y : server) :
  msgs_ok (if b then x else y) = if b then msgs_ok x else msgs_ok y.
Proof. destruct b; reflexivity. Qed.
Lemma msgs_warning_if (b : bool) (x y : server) :
  msgs_warning (if b then x else y) = if b then msgs_warning x else msgs_warning y.
Proof. destruct b; reflexivity. Qed.
Lemma msgs_critical_if (b : bool) (x y : server) :
  msgs_critical (if b then x else y) = if b then msgs_critical x else msgs_critical y.
Proof. destruct b; reflexivity. Qed.
Lemma perf_data_if (b : bool) (x y : server) :
  _perf_data (if b then x else y) = if b then _perf_data x else _perf_data y.
Proof. destruct b; reflexivity. Qed.
Lemma state_if (b : bool) (x y : server) :
  _state (if b then x else y) = if b then _state x else _state y.
Proof. destruct b; reflexivity. Qed.

#[export] Hint Rewrite msgs_ok_append_ok msgs_warning_append_ok msgs_critical_append_ok perf_data_append_ok state_append_ok msgs_ok_append_warning msgs_warning_append_warning msgs_critical_append_warning perf_data_append_warning state_append_warning msgs_ok_append_critical msgs_warning_append_critical msgs_critical_append_critical perf_data_append_critical state_append_critical msgs_ok_append_perf msgs_warning_append_perf msgs_critical_append_perf perf_data_append_perf state_append_perf msgs_ok_if msgs_warning_if msgs_critical_if perf_data_if state_if : server.

Lemma set_states_fold (l : list nat) (s : server) :
  _state (set_states l s) = fold_left Nat.max l (_state s).
Proof.
  revert s. induction l as [|st l IH]; intros s; [reflexivity|].
  unfold set_states in *. simpl. rewrite IH, _set_state_max. reflexivity.
Qed.

Lemma fold_max_list_max (l : list nat) (a : nat) :
  fold_left Nat.max l a = Nat.max a (list_max l).
Proof.
  revert a. induction l as [|x l IH]; intros a; simpl; [lia|].
  rewrite IH. lia.
Qed.

Lemma list_max_perm (l l' : list nat) :
  Permutation l l' -> list_max l = list_max l'.
Proof.
  intros Hp.
  assert (Hle : forall a b : list nat, Permutation a b -> (list_max a <= list_max b)%nat).
  { intros a b Hab. apply list_max_le. apply List.Forall_forall. intros x Hx.
    apply (Permutation_in _ Hab) in Hx.
    pose proof (proj1 (list_max_le b (list_max b)) (le_n _)) as Hb.
    rewrite List.Forall_forall in Hb. auto. }
  apply Nat.le_antisymm; apply Hle; [exact Hp | symmetry; exact Hp].
Qed.

(** C1: starting from a fresh object, after any sequence of [_set_state]
    calls the overall state is the maximum of the states passed (OK for
    none); a reordering of the calls gives the same state; and a single
    [_set_state] call never lowers the state. *)
Theorem set_state_ratchet :
  (forall l : list nat, _state (set_states l server_init) = list_max l) /\
  (forall l l' : list nat, Permutation l l' ->
     _state (set_states l' server_init) = _state (set_states l server_init)) /\
  (forall (st : nat) (s : server), (_state s <= _state (_set_state st s))%nat).
Proof.
  split; [|split].
  - intros l. rewrite set_states_fold, fold_max_list_max. reflexivity.
  - intros l l' Hp. rewrite !set_states_fold, !fold_max_list_max.
    rewrite (list_max_perm l l' Hp). reflexivity.
  - intros st s. rewrite _set_state_max. lia.
Qed.

Lemma set_state_ratchet_witness :
  Permutation [1%nat; 2%nat; 0%nat] [2%nat; 0%nat; 1%nat] /\
  _state (set_states [2%nat; 0%nat; 1%nat] server_init)
  = _state (set_states [1%nat; 2%nat; 0%nat] server_init).
Proof.
  assert (Hp : Permutation [1%nat; 2%nat; 0%nat] [2%nat; 0%nat; 1%nat]).
  { eapply perm_trans; [apply perm_swap|]. apply perm_skip. apply perm_swap. }
  split; [exact Hp|].
  exact (proj1 (proj2 set_state_ratchet) _ _ Hp).
Defined.

(** ** The primary lag estimate *)

Lemma master_log_ahead_loop_matched (relay : string) (logs : list (string * Z)) (a : Z) :
  master_log_ahead_loop relay logs true a = a + sum_sizes logs.
Proof.
  revert a. induction logs as [|[n sz] rest IH]; intros a; simpl.
  - lia.
  - rewrite orb_true_r, IH. lia.
Qed.

Lemma master_log_ahead_loop_unmatched (relay : string) (logs : list (string * Z)) (a : Z) :
  master_log_ahead_loop relay logs false a = a + sum_sizes (logs_from relay logs).
Proof.
  revert a. induction logs as [|[n sz] rest IH]; intros a; simpl.
  - lia.
  - rewrite orb_false_r. destruct (String.eqb n relay).
    + rewrite master_log_ahead_loop_matched. simpl. lia.
    + apply IH.
Qed.

(** C2: with the master reachable, the byte lag is the sum of the sizes
    of the master's binlog files from the first one named by
    [Relay_Master_Log_File] to the end of the list, minus
    [Exec_Master_Log_Pos]; on Scenario E (file 000009 executed to its end
    at 500000, then file 000010 of 1048576 bytes) it is 1048576. *)
Theorem primary_lag_sum_from_relay_file :
  (forall (vars : variables) (slave : slave_status) (logs : list (string * Z)),
     _get_replication_lag vars slave (MasterConnected (Ok logs))
     = Ok (sum_sizes (logs_from (Relay_Master_Log_File slave) logs)
           - Exec_Master_Log_Pos slave)) /\
  _get_replication_lag replica_vars scenario_e_slave
    (MasterConnected (Ok scenario_e_logs)) = Ok 1048576.
Proof.
  split.
  - intros vars slave logs. simpl. unfold diff_binlog_primary.
    rewrite master_log_ahead_loop_unmatched. reflexivity.
  - reflexivity.
Qed.

(** ** The fallback lag estimate *)

(** Whenever the replica's master file number is ahead of its applied one,
    the fallback multiplies an int by the [max_binlog_size] string read
    from [SHOW GLOBAL VARIABLES] and then subtracts an int from the
    result, which raises [TypeError]. *)
Lemma fallback_positive_offset_raises (vars : variables) (slave : slave_status)
      (f1 f2 : string) (n1 n2 : Z) :
  py_index (split_on "." (Master_Log_File slave)) 1 = Ok f1 ->
  py_int f1 = Ok n1 ->
  py_index (split_on "." (Relay_Master_Log_File slave)) 1 = Ok f2 ->
  py_int f2 = Ok n2 ->
  n2 < n1 ->
  _get_replication_lag vars slave MasterUnavailable = Raise TypeError.
Proof.
  intros H1 H2 H3 H4 Hlt. simpl. unfold diff_binlog_fallback.
  rewrite H1. simpl. rewrite H2. simpl. rewrite H3. simpl. rewrite H4. simpl.
  destruct (Z.ltb_spec 0 (n1 - n2)); [|lia].
  unfold var_get. destruct (vars !! "max_binlog_size"); reflexivity.
Qed.

(** C3 (failing input): the master of the Scenario E replica is
    unreachable, so the fallback runs; [max_binlog_size] is the string
    ["1073741824"], [1 * "1073741824"] is that string again, and
    subtracting [Exec_Master_Log_Pos] raises [TypeError]. The exception
    leaves [check_replication], [status] and [main] uncaught. *)
Theorem fallback_lag_type_error :
  _get_replication_lag replica_vars scenario_e_slave MasterUnavailable
    = Raise TypeError /\
  (forall (pretty_size : Z -> string) (cc cl cd : server -> py server),
     main (Ok server_init)
          (status pretty_size cc cl cd replica_world_no_master replication_only_args)
          "db-replica" "3306" = Raise TypeError).
Proof.
  split.
  - reflexivity.
  - intros pretty_size cc cl cd. reflexivity.
Qed.

(** ** Failures inside checks *)

Lemma py_bind_raises {A B} (m : py A) (k : A -> py B) :
  (forall a, exists e, k a = Raise e) -> exists e, py_bind m k = Raise e.
Proof. intros Hk. destruct m as [a|e]; simpl; eauto. Qed.

(** C4 (counterexample): the processlist query of the user-connection
    check is refused; the exception leaves [status] and [main], so the
    slave-host check after it never runs and no report is printed. *)
Lemma query_failure_aborts_run :
  main (Ok server_init)
       (status bytes_text pass_check pass_check pass_check
               processlist_denied_world user_and_slave_args)
       "db-replica" "3306" = Raise processlist_denied.
Proof. reflexivity. Qed.


(** ** The -1 bounds *)

(** Scenario A: 10 running threads out of a concurrency of 20 with the
    default bounds (60, 95) is a usage of 50.0%, OK. *)
Example thread_usage_scenario_a :
  check_threads_usage (<["Threads_running" := "10"]> ∅) replica_vars 60 95 server_init
  = Ok (mkServer 0 ["Thread usage 50.0% Threads running 10.0 Thread concurrency 20.0 "]
                 [] [] ["thread_usage=50.0%;60;95"]).
Proof. vm_compute. reflexivity. Qed.

(** C5 (counterexample): the thread-usage check with bounds (-1, -1) is
    evaluated, not skipped: it appends a perf datum and a message and
    raises the state to CRITICAL. *)
Lemma thread_usage_disabled_bounds_evaluated :
  check_threads_usage (<["Threads_running" := "10"]> ∅) replica_vars (-1) (-1) server_init
  = Ok (mkServer 2 [] []
                 ["Thread usage 50.0% Threads running 10.0 Thread concurrency 20.0 "]
                 ["thread_usage=50.0%;-1;-1"]).
Proof. vm_compute. reflexivity. Qed.

Lemma round2_centi_nonneg (x : Q) : Qle 0 x -> 0 <= round2_centi x.
Proof.
  intros Hx. unfold round2_centi.
  assert (Hy : Qle 0 (Qmult x (inject_Z 100))).
  { apply Qmult_le_0_compat; [exact Hx|]. unfold Qle. simpl. lia. }
  replace (Qle_bool (inject_Z 0) (Qmult x (inject_Z 100))) with true
    by (symmetry; apply Qle_bool_iff; exact Hy).
  rewrite <- (Qfloor_Z 0). apply Qfloor_resp_le.
  apply (Qle_trans _ (Qmult x (inject_Z 100))); [exact Hy|].
  rewrite <- (Qplus_0_r (Qmult x (inject_Z 100))) at 1.
  apply Qplus_le_compat; [apply Qle_refl|]. unfold Qle. simpl. lia.
Qed.


(** ** The report *)

Definition two_warnings : server :=
  mkServer 1 ["User root has 30 connections (w:20 c:5)"]
    ["Slave is not operating in read only mode";
     "Replication Master db-master:3306 Slave lag 11m40s/0 B"]
    [] ["replication_lag_bytes=0b;52428800;104857600"].

(** C6 (counterexample): [_print_status('warning')] pops the first
    warning message for its header line; run again on the object it left,
    it prints another header and fewer lines. *)
Lemma print_status_consumes_header :
  _print_status "warning" two_warnings =
    Ok (["Warning Database Health - Slave is not operating in read only mode";
         "Warning - Replication Master db-master:3306 Slave lag 11m40s/0 B";
         "|replication_lag_bytes=0b;52428800;104857600"],
        set_bucket two_warnings "warning"
          ["Replication Master db-master:3306 Slave lag 11m40s/0 B"]) /\
  _print_status "warning" (set_bucket two_warnings "warning"
          ["Replication Master db-master:3306 Slave lag 11m40s/0 B"]) =
    Ok (["Warning Database Health - Replication Master db-master:3306 Slave lag 11m40s/0 B";
         "|replication_lag_bytes=0b;52428800;104857600"],
        set_bucket two_warnings "warning" []) /\
  set_bucket two_warnings "warning"
    ["Replication Master db-master:3306 Slave lag 11m40s/0 B"] <> two_warnings.
Proof.
  split; [reflexivity|split; [reflexivity|]].
  unfold two_warnings. simpl. discriminate.
Qed.

(** C6 (amended): on level [ok] the formatter prints the fixed header, the
    OK messages and the perf line, and leaves the object as it was, so a
    second run prints the same lines. On [warning] or [critical] it pops
    the first message of that bucket for the header line and leaves the
    bucket without it, so a second run prints a different report (and
    raises IndexError once the bucket is empty). State and perf data are
    never changed. *)
Theorem print_status_ok_idempotent_pop_otherwise :
  (forall s : server,
     _print_status "ok" s =
       Ok (app ["Ok Database Health"]
             (app (map (fun m => "Ok - " ++ m) (msgs_ok s))
                  ["|" ++ String.concat " " (_perf_data s)]), s)) /\
  (forall (level : string) (s : server) (m : string) (rest : list string),
     level = "warning" \/ level = "critical" ->
     bucket s level = Some (m :: rest) ->
     _print_status level s =
       Ok (app [capitalize level ++ " Database Health - " ++ m]
             (app (map (fun x => capitalize level ++ " - " ++ x) rest)
                  ["|" ++ String.concat " " (_perf_data s)]),
           set_bucket s level rest) /\
     _state (set_bucket s level rest) = _state s /\
     _perf_data (set_bucket s level rest) = _perf_data s) /\
  (forall (level : string) (s : server),
     level = "warning" \/ level = "critical" ->
     bucket s level = Some [] ->
     _print_status level s = Raise IndexError).
Proof.
  split; [|split].
  - intros s. reflexivity.
  - intros level s m rest [-> | ->] Hb; unfold bucket in Hb; simpl in Hb; injection Hb as Hb;
      unfold _print_status, bucket; simpl; rewrite Hb; simpl; auto.
  - intros level s [-> | ->] Hb; unfold bucket in Hb; simpl in Hb; injection Hb as Hb;
      unfold _print_status, bucket; simpl; rewrite Hb; reflexivity.
Qed.

Lemma print_status_ok_idempotent_pop_otherwise_witness :
  _print_status "warning" two_warnings =
    Ok (app ["Warning Database Health - Slave is not operating in read only mode"]
          (app (map (fun x => "Warning - " ++ x)
                  ["Replication Master db-master:3306 Slave lag 11m40s/0 B"])
               ["|" ++ String.concat " " (_perf_data two_warnings)]),
        set_bucket two_warnings "warning"
          ["Replication Master db-master:3306 Slave lag 11m40s/0 B"]).
Proof.
  exact (proj1 (proj1 (proj2 print_status_ok_idempotent_pop_otherwise)
    "warning" two_warnings "Slave is not operating in read only mode"
    ["Replication Master db-master:3306 Slave lag 11m40s/0 B"]
    (or_introl eq_refl) eq_refl)).
Defined.

(** ** User connections *)

(** C7: the user-connection check records CRITICAL only when
    [alert_level] is ['critical'] and the count is at most the critical
    bound. With any other [alert_level] a count at most the warning bound
    records WARNING, even when it is also at most the critical bound, and
    a larger count records OK. Scenario D: count 3 with bounds (20, 5) at
    the default level [warning] yields WARNING. *)
Theorem user_connections_critical_opt_in :
  (forall (q : string -> py Z) (u al : string) (w k : Z) (s : server) (cnt : Z),
     q (user_connections_query u) = Ok cnt ->
     exists s', check_user_connections q u al w k s = Ok s' /\
       (al <> "critical" ->
          msgs_critical s' = msgs_critical s /\
          (cnt <= w -> msgs_warning s' = app (msgs_warning s) [user_connections_msg u cnt w k] /\
                       msgs_ok s' = msgs_ok s /\
                       _state s' = Nat.max (_state s) state_warning) /\
          (w < cnt -> msgs_ok s' = app (msgs_ok s) [user_connections_msg u cnt w k] /\
                      msgs_warning s' = msgs_warning s /\
                      _state s' = _state s)) /\
       (al = "critical" -> cnt <= k ->
          msgs_critical s' = app (msgs_critical s) [user_connections_msg u cnt w k] /\
          _state s' = Nat.max (_state s) state_critical)) /\
  check_user_connections (fun _ => Ok 3) "root" "warning" 20 5 server_init
    = Ok (mkServer state_warning [] ["User root has 3 connections (w:20 c:5)"] []
                   ["user_connected=3;20;5"]).
Proof.
  split; [|reflexivity].
  intros q u al w k s cnt Hq.
  unfold check_user_connections. rewrite Hq. simpl.
  destruct (String.eqb_spec al "critical") as [Ha|Ha];
    destruct (Z.leb_spec cnt k) as [Hk|Hk];
    destruct (Z.leb_spec cnt w) as [Hw|Hw]; simpl;
    eexists; (split; [reflexivity|]); autorewrite with server; simpl;
    split; intros; try congruence; try lia; repeat split; intros; try lia; auto.
Qed.

Lemma user_connections_critical_opt_in_witness :
  exists s', check_user_connections (fun _ => Ok 3) "root" "warning" 20 5 server_init = Ok s'.
Proof.
  destruct (proj1 user_connections_critical_opt_in (fun _ => Ok 3) "root" "warning" 20 5
              server_init 3 eq_refl) as [s' [H _]].
  exists s'. exact H.
Defined.

(** ** The replication summary line *)

(** C8 (counterexample): with 199500000 bytes of lag (above the byte
    critical bound 104857600) and 700 s of lag (between the seconds bounds
    600 and 1800), the summary line lands in both the critical and the
    warning bucket. *)
Lemma replication_summary_in_both_buckets :
  exists s', check_replication bytes_text replica_vars (Some lagging_slave)
               (MasterConnected (Ok lagging_logs)) 600 1800 52428800 104857600 false
               server_init = Ok s' /\
    In (replication_summary bytes_text lagging_slave 199500000) (msgs_critical s') /\
    In (replication_summary bytes_text lagging_slave 199500000) (msgs_warning s').
Proof.
  eexists. split; [vm_compute; reflexivity|].
  vm_compute. split; left; reflexivity.
Qed.

Lemma stage_sql_buckets (sl : slave_status) (s : server) :
  msgs_critical (stage_sql sl s) = app (msgs_critical s) (sql_down_msgs sl) /\
  msgs_warning (stage_sql sl s) = msgs_warning s /\
  msgs_ok (stage_sql sl s) = msgs_ok s.
Proof.
  unfold stage_sql, sql_down_msgs.
  destruct (negb _); [destruct (negb _)|]; autorewrite with server;
    rewrite <- ?app_assoc, ?app_nil_r; auto.
Qed.

Lemma stage_io_buckets (sl : slave_status) (s : server) :
  msgs_critical (stage_io sl s) = app (msgs_critical s) (io_down_msgs sl) /\
  msgs_warning (stage_io sl s) = msgs_warning s /\
  msgs_ok (stage_io sl s) = msgs_ok s.
Proof.
  unfold stage_io, io_down_msgs.
  destruct (negb _); autorewrite with server; rewrite ?app_nil_r; auto.
Qed.

Lemma stage_ro_buckets (vars : variables) (ignore : bool) (s : server) :
  msgs_critical (stage_ro vars ignore s) = msgs_critical s /\
  msgs_warning (stage_ro vars ignore s) =
    app (msgs_warning s) (replication_readonly_msgs vars ignore) /\
  msgs_ok (stage_ro vars ignore s) = msgs_ok s.
Proof.
  unfold stage_ro, replication_readonly_msgs.
  destruct (_ && _); autorewrite with server; rewrite ?app_nil_r; auto.
Qed.

Lemma stage_bytes_buckets (tbw tbc lb : Z) (msg : string) (s : server) :
  msgs_critical (stage_bytes tbw tbc lb msg s) =
    app (msgs_critical s) (if tbc <=? lb then [msg] else []) /\
  msgs_warning (stage_bytes tbw tbc lb msg s) =
    app (msgs_warning s) (if tbc <=? lb then [] else if tbw <=? lb then [msg] else []) /\
  msgs_ok (stage_bytes tbw tbc lb msg s) = msgs_ok s.
Proof.
  unfold stage_bytes.
  destruct (tbc <=? lb); [|destruct (tbw <=? lb)]; autorewrite with server;
    rewrite ?app_nil_r; auto.
Qed.

Lemma stage_seconds_buckets (tsw tsc ls : Z) (msg : string) (s : server) :
  msgs_critical (stage_seconds tsw tsc ls msg s) =
    app (msgs_critical s) (if tsc <=? ls then [msg] else []) /\
  msgs_warning (stage_seconds tsw tsc ls msg s) =
    app (msgs_warning s) (if tsc <=? ls then [] else if tsw <=? ls then [msg] else []) /\
  msgs_ok (stage_seconds tsw tsc ls msg s) =
    app (msgs_ok s) (if tsc <=? ls then [] else if tsw <=? ls then [] else [msg]).
Proof.
  unfold stage_seconds.
  destruct (tsc <=? ls); [|destruct (tsw <=? ls)]; autorewrite with server;
    rewrite ?app_nil_r; auto.
Qed.

(** C8 (amended): [check_replication] appends its summary line once for
    the byte lag (critical at or above the byte critical bound, else
    warning at or above the byte warning bound, else nowhere) and once for
    the seconds lag (critical, else warning, else OK), after the
    thread-down and read-only messages. The line can so land in both the
    warning and the critical bucket, or twice in one. *)
Theorem replication_summary_per_lag_measure :
  forall (ps : Z -> string) (vars : variables) (sl : slave_status) (m : master_conn)
         (tsw tsc tbw tbc : Z) (ignore : bool) (s : server) (lb : Z),
    _get_replication_lag vars sl m = Ok lb ->
    let ls := lag_seconds_of sl in
    let msg := replication_summary ps sl lb in
    exists s', check_replication ps vars (Some sl) m tsw tsc tbw tbc ignore s = Ok s' /\
      msgs_critical s' =
        app (msgs_critical s) (app (replication_thread_msgs sl)
          (app (if tbc <=? lb then [msg] else []) (if tsc <=? ls then [msg] else []))) /\
      msgs_warning s' =
        app (msgs_warning s) (app (replication_readonly_msgs vars ignore)
          (app (if tbc <=? lb then [] else if tbw <=? lb then [msg] else [])
               (if tsc <=? ls then [] else if tsw <=? ls then [msg] else []))) /\
      msgs_ok s' =
        app (msgs_ok s) (if tsc <=? ls then [] else if tsw <=? ls then [] else [msg]).
Proof.
  intros ps vars sl m tsw tsc tbw tbc ignore s lb Hlag ls msg.
  pose (s0 := append_perf ("replication_lag_seconds=" ++ z2s ls ++ "s;"
                            ++ z2s tsw ++ ";" ++ z2s tsc)
                (append_perf ("replication_lag_bytes=" ++ z2s lb ++ "b;"
                              ++ z2s tbw ++ ";" ++ z2s tbc) s)).
  exists (stage_seconds tsw tsc ls msg (stage_bytes tbw tbc lb msg
            (stage_ro vars ignore (stage_io sl (stage_sql sl s0))))).
  split.
  { unfold check_replication. rewrite Hlag. reflexivity. }
  destruct (stage_seconds_buckets tsw tsc ls msg (stage_bytes tbw tbc lb msg
              (stage_ro vars ignore (stage_io sl (stage_sql sl s0))))) as (-> & -> & ->).
  destruct (stage_bytes_buckets tbw tbc lb msg
              (stage_ro vars ignore (stage_io sl (stage_sql sl s0)))) as (-> & -> & ->).
  destruct (stage_ro_buckets vars ignore (stage_io sl (stage_sql sl s0))) as (-> & -> & ->).
  destruct (stage_io_buckets sl (stage_sql sl s0)) as (-> & -> & ->).
  destruct (stage_sql_buckets sl s0) as (-> & -> & ->).
  unfold replication_thread_msgs. rewrite <- !app_assoc.
  repeat split; reflexivity.
Qed.

Lemma replication_summary_per_lag_measure_witness :
  exists s', check_replication bytes_text replica_vars (Some lagging_slave)
               (MasterConnected (Ok lagging_logs)) 600 1800 52428800 104857600 false
               server_init = Ok s'.
Proof.
  destruct (replication_summary_per_lag_measure bytes_text replica_vars lagging_slave
              (MasterConnected (Ok lagging_logs)) 600 1800 52428800 104857600 false
              server_init 199500000 eq_refl) as [s' [H _]].
  exists s'. exact H.
Defined.

(** ** Connection failures *)

(** C9: when [MySQLServer(...)] raises [MySQLServerConnectException],
    [main] prints the single line of its handler, never runs a check, and
    exits 1 (WARNING) for errors 1045, 1130 and 1227, 3 (UNKNOWN) for
    2005, and 2 (CRITICAL) for every other error code. *)
Theorem connect_failure_exit_code :
  forall (A : Type) (run : A -> py (list string * nat)) (errno : Z) (m host port : string),
    main (Raise (ConnectException errno m)) run host port =
      Ok ([fst (connect_failure_report errno host port)],
          if (errno =? 1045) || (errno =? 1130) || (errno =? 1227) then 1
          else if errno =? 2005 then 3 else 2).
Proof.
  intros A run errno m host port. unfold main. simpl. f_equal. f_equal.
  unfold connect_failure_report.
  destruct (Z.eqb_spec errno 1130) as [->|H1]; [reflexivity|].
  destruct (Z.eqb_spec errno 1045) as [->|H2]; [reflexivity|].
  destruct (Z.eqb_spec errno 2005) as [->|H3]; [reflexivity|].
  destruct (Z.eqb_spec errno 1227) as [->|H4]; [reflexivity|].
  reflexivity.
Qed.

(** ** The connection parameters of the master connection *)

(** C10: [_connect_master] does not copy [self._kwargs]: it overwrites
    [host] and [port] in the dict [self._kwargs] refers to, keeps its other
    entries in that same dict, touches no other object, and a master
    object it creates refers to that same dict. *)
Theorem connect_master_mutates_kwargs :
  forall (connects : Kwargs.pydict -> bool) (sl : slave_status) (h : Kwargs.heap)
         (self : Kwargs.session) (d : Kwargs.pydict),
    h !! Kwargs.kwargs_ref self = Some d ->
    Kwargs._master self = None ->
    let r := Kwargs._connect_master connects sl h self in
    let d' := <["port" := VInt (Master_Port sl)]> (<["host" := VStr (Master_Host sl)]> d) in
    fst r !! Kwargs.kwargs_ref self = Some d' /\
    (forall k : string, k <> "host" -> k <> "port" -> d' !! k = d !! k) /\
    (forall l, l <> Kwargs.kwargs_ref self -> fst r !! l = h !! l) /\
    Kwargs.kwargs_ref (snd r) = Kwargs.kwargs_ref self /\
    (forall mo, Kwargs._master (snd r) = Some mo ->
                Kwargs.master_kwargs_ref mo = Kwargs.kwargs_ref self).
Proof.
  intros connects sl h self d Hd Hm r d'.
  unfold r, Kwargs._connect_master. rewrite Hd. unfold Kwargs.new_server.
  rewrite lookup_insert_eq.
  split; [|split; [|split; [|split]]].
  - destruct (connects _); simpl; apply lookup_insert_eq.
  - intros k Hh Hp. unfold d'.
    rewrite lookup_insert_ne by congruence. rewrite lookup_insert_ne by congruence.
    reflexivity.
  - intros l Hl. destruct (connects _); simpl; apply lookup_insert_ne; congruence.
  - destruct (connects _); reflexivity.
  - intros mo. destruct (connects _); simpl.
    + intros Hmo. injection Hmo as <-. reflexivity.
    + rewrite Hm. discriminate.
Qed.

Lemma connect_master_mutates_kwargs_witness :
  (<[1%positive := <["port" := VInt 3306]> (<["host" := VStr "db-master"]>
                    (<["host" := VStr "db-replica"]> (<["user" := VStr "nagios"]> ∅)))]>
     (<[1%positive := <["host" := VStr "db-replica"]> (<["user" := VStr "nagios"]> ∅)]> ∅)
   : Kwargs.heap) !! 1%positive
  = Some (<["port" := VInt 3306]> (<["host" := VStr "db-master"]>
            (<["host" := VStr "db-replica"]> (<["user" := VStr "nagios"]> ∅)))).
Proof.
  exact (proj1 (connect_master_mutates_kwargs (fun _ => true) lagging_slave
    (<[1%positive := <["host" := VStr "db-replica"]> (<["user" := VStr "nagios"]> ∅)]> ∅)
    (Kwargs.mkSession 1%positive None)
    (<["host" := VStr "db-replica"]> (<["user" := VStr "nagios"]> ∅))
    eq_refl eq_refl)).
Defined.

(* ------------------------------------------------------------------ *)
(** * Further properties of the checks *)

Lemma keeps_refl s : keeps s s.
Proof. split; [repeat split; reflexivity|auto]. Qed.

Lemma keeps_trans s1 s2 s3 : keeps s1 s2 -> keeps s2 s3 -> keeps s1 s3.
Proof.
  intros [[? (?&?&?&?)] ?] [[? (?&?&?&?)] ?]. split; [|auto].
  repeat split; first [lia | etrans; eassumption].
Qed.

Lemma prefix_snoc {A} (l l' : list A) x : l `prefix_of` l' -> l `prefix_of` app l' [x].
Proof. intros. etrans; [eassumption|]. by apply prefix_app_r. Qed.

Lemma snoc_neq {A} (l : list A) x : app l [x] <> [].
Proof. destruct l; discriminate. Qed.

Lemma keeps_append_ok s0 x m : keeps s0 x -> keeps s0 (append_ok m x).
Proof.
  intros [[? (?&?&?&?)] Hr]. unfold keeps, grows, reportable in *; autorewrite with server. split.
  - repeat split; auto using prefix_snoc.
  - intros Hs. destruct (Hr Hs) as (?&?&?). auto.
Qed.
Lemma keeps_append_perf s0 x m : keeps s0 x -> keeps s0 (append_perf m x).
Proof.
  intros [[? (?&?&?&?)] Hr]. unfold keeps, grows, reportable in *; autorewrite with server. split.
  - repeat split; auto using prefix_snoc.
  - intros Hs. destruct (Hr Hs) as (?&?&?). auto.
Qed.
Lemma keeps_append_warning s0 x m : keeps s0 x -> keeps s0 (append_warning m x).
Proof.
  intros [[? (?&?&?&?)] Hr]. unfold keeps, grows, reportable in *; autorewrite with server. split.
  - repeat split; auto using prefix_snoc.
  - intros Hs. destruct (Hr Hs) as (?&?&?). split; [auto|split; [auto|]].
    intros. apply snoc_neq.
Qed.
Lemma keeps_append_critical s0 x m : keeps s0 x -> keeps s0 (append_critical m x).
Proof.
  intros [[? (?&?&?&?)] Hr]. unfold keeps, grows, reportable in *; autorewrite with server. split.
  - repeat split; auto using prefix_snoc.
  - intros Hs. destruct (Hr Hs) as (?&?&?). split; [auto|split; [|auto]].
    intros. apply snoc_neq.
Qed.

Lemma keeps_set_state s0 x st :
  keeps s0 x -> (st <= state_critical)%nat ->
  (st = state_critical -> msgs_critical x <> []) ->
  (st = state_warning -> msgs_warning x <> []) ->
  keeps s0 (_set_state st x).
Proof.
  intros [[? (?&?&?&?)] Hr] Hst Hc Hw.
  unfold _set_state. destruct (Nat.leb_spec (_state x) st).
  - unfold keeps, grows, reportable in *; simpl.
    split; [repeat split; auto; lia|]. intros Hs. destruct (Hr Hs) as (?&?&?). auto.
  - split; [repeat split; auto|exact Hr].
Qed.

Lemma keeps_critical s0 x m :
  keeps s0 x -> keeps s0 (_set_state state_critical (append_critical m x)).
Proof.
  intros. apply keeps_set_state.
  - auto using keeps_append_critical.
  - reflexivity.
  - intros _. autorewrite with server. apply snoc_neq.
  - discriminate.
Qed.
Lemma keeps_warning s0 x m :
  keeps s0 x -> keeps s0 (_set_state state_warning (append_warning m x)).
Proof.
  intros. apply keeps_set_state.
  - auto using keeps_append_warning.
  - unfold state_warning, state_critical; lia.
  - discriminate.
  - intros _. autorewrite with server. apply snoc_neq.
Qed.
Lemma keeps_ok s0 x : keeps s0 x -> keeps s0 (_set_state state_ok x).
Proof.
  intros. apply keeps_set_state; [assumption| |discriminate|discriminate].
  unfold state_ok, state_critical; lia.
Qed.

Ltac keeps_tac :=
  repeat match goal with
  | |- keeps ?s ?s => apply keeps_refl
  | |- keeps _ (if ?b then _ else _) => destruct b
  | |- keeps _ (append_ok _ _) => apply keeps_append_ok
  | |- keeps _ (append_perf _ _) => apply keeps_append_perf
  | |- keeps _ (append_warning _ _) => apply keeps_append_warning
  | |- keeps _ (append_critical _ _) => apply keeps_append_critical
  | |- keeps _ (_set_state state_critical (append_critical _ _)) => apply keeps_critical
  | |- keeps _ (_set_state state_warning (append_warning _ _)) => apply keeps_warning
  | |- keeps _ (_set_state state_ok _) => apply keeps_ok
  end.

Lemma stage_sql_keeps s0 sl x : keeps s0 x -> keeps s0 (stage_sql sl x).
Proof. intros. unfold stage_sql. keeps_tac; auto. Qed.
Lemma stage_io_keeps s0 sl x : keeps s0 x -> keeps s0 (stage_io sl x).
Proof. intros. unfold stage_io. keeps_tac; auto. Qed.
Lemma stage_ro_keeps s0 v i x : keeps s0 x -> keeps s0 (stage_ro v i x).
Proof. intros. unfold stage_ro. keeps_tac; auto. Qed.
Lemma stage_bytes_keeps s0 a b c m x : keeps s0 x -> keeps s0 (stage_bytes a b c m x).
Proof. intros. unfold stage_bytes. keeps_tac; auto. Qed.
Lemma stage_seconds_keeps s0 a b c m x : keeps s0 x -> keeps s0 (stage_seconds a b c m x).
Proof. intros. unfold stage_seconds. keeps_tac; auto. Qed.

Lemma check_replication_stages ps vars sl m tsw tsc tbw tbc ignore s lb :
  _get_replication_lag vars sl m = Ok lb ->
  check_replication ps vars (Some sl) m tsw tsc tbw tbc ignore s =
  Ok (stage_seconds tsw tsc (lag_seconds_of sl) (replication_summary ps sl lb)
       (stage_bytes tbw tbc lb (replication_summary ps sl lb)
        (stage_ro vars ignore (stage_io sl (stage_sql sl
          (append_perf ("replication_lag_seconds=" ++ z2s (lag_seconds_of sl) ++ "s;"
                            ++ z2s tsw ++ ";" ++ z2s tsc)
                (append_perf ("replication_lag_bytes=" ++ z2s lb ++ "b;"
                              ++ z2s tbw ++ ";" ++ z2s tbc) s))))))).
Proof. intros H. unfold check_replication. rewrite H. reflexivity. Qed.

Lemma check_replication_keeps ps vars sl m tsw tsc tbw tbc ignore s s' :
  check_replication ps vars sl m tsw tsc tbw tbc ignore s = Ok s' -> keeps s s'.
Proof.
  destruct sl as [sl|]; [|intros [= <-]; apply keeps_refl].
  destruct (_get_replication_lag vars sl m) as [lb|e] eqn:Hl.
  - rewrite (check_replication_stages _ _ _ _ _ _ _ _ _ _ _ Hl). intros [= <-].
    apply stage_seconds_keeps, stage_bytes_keeps, stage_ro_keeps, stage_io_keeps,
      stage_sql_keeps. keeps_tac.
  - unfold check_replication. rewrite Hl. discriminate.
Qed.

Lemma check_heartbeat_keeps vars w s s' : check_heartbeat vars w s = Ok s' -> keeps s s'.
Proof.
  unfold check_heartbeat. destruct (bool_decide _); [intros [= <-]; apply keeps_refl|].
  destruct w as [[]|[]]; cbn; try discriminate; intros [= <-]; keeps_tac.
Qed.

Lemma check_threads_usage_keeps st vars w c s s' :
  check_threads_usage st vars w c s = Ok s' -> keeps s s'.
Proof.
  unfold check_threads_usage.
  destruct (py_float_int _) as [tr|]; [|discriminate]; cbn.
  destruct (py_float_int _) as [tc|]; [|discriminate]; cbn.
  destruct (tc =? 0); [intros [= <-]; apply keeps_refl|].
  destruct (_ <=? _); [|destruct (_ <=? _)]; intros [= <-]; keeps_tac.
Qed.

Lemma check_slave_connections_keeps h w c s s' :
  check_slave_connections h w c s = Ok s' -> keeps s s'.
Proof.
  unfold check_slave_connections. destruct (_ || _); [intros [= <-]; apply keeps_refl|].
  destruct h as [n|]; [|discriminate]; cbn.
  destruct (_ <=? _); [|destruct (_ <=? _)]; intros [= <-]; keeps_tac.
Qed.

Lemma check_user_connections_keeps q u al w c s s' :
  check_user_connections q u al w c s = Ok s' -> keeps s s'.
Proof.
  unfold check_user_connections. destruct (q _) as [n|]; [|discriminate]; cbn.
  destruct (_ && _); [|destruct (_ <=? _)]; intros [= <-]; keeps_tac.
Qed.

Lemma check_connections_keeps st vars w c s s' :
  check_connections st vars w c s = Ok s' -> keeps s s'.
Proof.
  unfold check_connections.
  destruct (get_float0 st _) as [a|]; [|discriminate]; cbn.
  destruct (get_float0 vars _) as [b|]; [|discriminate]; cbn.
  destruct (b =? 0); [discriminate|].
  destruct (py2_ge_centi _ _); [|destruct (_ <=? _)]; intros [= <-]; keeps_tac.
Qed.

Lemma liquibase_report_keeps s0 w c x l :
  keeps s0 x -> keeps s0 (liquibase_report w c x l).
Proof. intros. unfold liquibase_report. keeps_tac; auto. Qed.

Lemma liquibase_fold_keeps s0 w c locks x :
  keeps s0 x -> keeps s0 (fold_left (liquibase_report w c) locks x).
Proof.
  revert x. induction locks as [|l r IH]; intros x H; [exact H|].
  simpl. apply IH, liquibase_report_keeps, H.
Qed.

Lemma check_liquibase_keeps ra ro db tb w c s s' :
  check_liquibase ra ro db tb w c s = Ok s' -> keeps s s'.
Proof.
  unfold check_liquibase.
  destruct (ra _) as [tables|]; [|discriminate]; cbn.
  assert (Hls : forall ls, match tables with
                | [] => Ok ([], _set_state state_warning
                      (append_warning ("Liquibase lock table " ++ tb ++ " not found") s))
                | _ :: _ => let! locks := collect_locks ro tables in Ok (locks, s)
                end = Ok ls -> keeps s (snd ls)).
  { intros ls. destruct tables as [|t ts].
    - intros [= <-]. simpl. keeps_tac.
    - destruct (collect_locks ro (t :: ts)); [|discriminate]. intros [= <-]. apply keeps_refl. }
  destruct (match tables with _ => _ end) as [ls|] eqn:E; [|discriminate]. cbn.
  intros [= <-]. pose proof (liquibase_fold_keeps s w c (fst ls) (snd ls) (Hls ls eq_refl)).
  keeps_tac; auto.
Qed.

Lemma py_fold_inv {A B} (P : A -> Prop) (f : A -> B -> py A) l a r :
  (forall a x a', f a x = Ok a' -> P a -> P a') ->
  py_fold f l a = Ok r -> P a -> P r.
Proof.
  intros Hf. revert a. induction l as [|x l IH]; intros a; simpl.
  - intros [= <-]. auto.
  - destruct (f a x) as [a'|] eqn:E; [|discriminate]. simpl. intros H Pa.
    apply (IH a' H). eapply Hf; eauto.
Qed.

Lemma check_definer_keeps dr ra targets s s' :
  check_definer dr ra targets s = Ok s' -> keeps s s'.
Proof.
  unfold check_definer. destruct (definer_broken ra targets) as [b|]; [|discriminate]. cbn.
  intros H. eapply (py_fold_inv (keeps s)); [|exact H|keeps_tac].
  intros a x a' Hf Ha. cbv beta in Hf. destruct (b !! x) as [bt|]; [|discriminate].
  destruct (size bt); injection Hf as <-; keeps_tac; auto.
Qed.

Lemma run_if_keeps b f s s' :
  (forall s s', f s = Ok s' -> keeps s s') -> run_if b f s = Ok s' -> keeps s s'.
Proof. intros Hf. destruct b; simpl; [apply Hf|intros [= <-]; apply keeps_refl]. Qed.

Lemma bind_keeps (m : py server) k s s' :
  (forall s1, m = Ok s1 -> keeps s s1) ->
  (forall s1 s2, k s1 = Ok s2 -> keeps s1 s2) ->
  py_bind m k = Ok s' -> keeps s s'.
Proof.
  intros Hm Hk. destruct m as [s1|]; [|discriminate]. simpl. intros H.
  eapply keeps_trans; [apply Hm; reflexivity|]. eapply Hk; eauto.
Qed.

Ltac check_keeps :=
  first [ apply check_heartbeat_keeps | apply check_replication_keeps
        | apply check_threads_usage_keeps | apply check_user_connections_keeps
        | apply check_connections_keeps | apply check_slave_connections_keeps
        | apply check_liquibase_keeps | apply check_definer_keeps ].

Ltac chain_keeps :=
  match goal with
  | |- py_bind (run_if ?b ?f ?s) _ = Ok ?s' -> keeps ?s ?s' =>
      let s1 := fresh "s" in
      let E := fresh "E" in
      let H := fresh "H" in
      destruct (run_if b f s) as [s1|] eqn:E; [|discriminate]; simpl; intros H;
      apply (keeps_trans s s1 s');
      [ eapply run_if_keeps; [|exact E]; intros ? ?; check_keeps
      | revert H; chain_keeps ]
  | |- run_if _ _ _ = Ok _ -> keeps _ _ =>
      apply run_if_keeps; intros ? ?; check_keeps
  end.

Lemma status_checks_keeps ps w a cw cc ra ro db tb lw lc dr rd targets s s' :
  status_checks ps (check_connections (w_status w) (w_variables w) cw cc)
    (check_liquibase ra ro db tb lw lc) (check_definer dr rd targets) w a s = Ok s' ->
  keeps s s'.
Proof. unfold status_checks. chain_keeps. Qed.

Lemma server_init_reportable : reportable server_init.
Proof. unfold reportable. simpl. unfold state_ok, state_critical, state_warning. repeat split; lia. Qed.

(** X17. When the checks of [status] return, [status] returns the final state as the exit code, and that code is OK, WARNING or CRITICAL. *)
Theorem status_exit_code_in_range :
  forall ps w a cw cc ra ro db tb lw lc dr rd targets s',
    status_checks ps (check_connections (w_status w) (w_variables w) cw cc)
      (check_liquibase ra ro db tb lw lc) (check_definer dr rd targets) w a server_init = Ok s' ->
    exists out, status ps (check_connections (w_status w) (w_variables w) cw cc)
      (check_liquibase ra ro db tb lw lc) (check_definer dr rd targets) w a server_init
      = Ok (out, _state s') /\ (_state s' <= state_critical)%nat.
Proof.
  intros until s'. intros H.
  destruct (proj2 (status_checks_keeps _ _ _ _ _ _ _ _ _ _ _ _ _ _ _ _ H) server_init_reportable)
    as (Hle & Hc & Hw).
  unfold status. rewrite H. simpl.
  destruct (Nat.eqb_spec (_state s') state_critical) as [E|E].
  - specialize (Hc E). destruct (msgs_critical s') as [|m rest] eqn:Ec; [congruence|].
    unfold _print_status. simpl. rewrite Ec. simpl. eexists. split; [reflexivity|exact Hle].
  - destruct (Nat.eqb_spec (_state s') state_warning) as [E'|E'].
    + specialize (Hw E'). destruct (msgs_warning s') as [|m rest] eqn:Ew; [congruence|].
      unfold _print_status. simpl. rewrite Ew. simpl. eexists. split; [reflexivity|exact Hle].
    + unfold _print_status. simpl. eexists. split; [reflexivity|exact Hle].
Qed.

(** X1. [pretty_time] of a duration of at least one day prints each of its days, hours, minutes and seconds parts followed by its unit letter. *)
Theorem pretty_time_days_hours_minutes_seconds :
  forall d h m sec : Z,
    0 < d -> 0 <= h < 24 -> 0 <= m < 60 -> 0 <= sec < 60 ->
    pretty_time (d * 86400 + h * 3600 + m * 60 + sec)
    = fmt_d d ++ "d" ++ fmt_d h ++ "h" ++ fmt_d m ++ "m" ++ fmt_d sec ++ "s".
Proof.
  intros d h m sec Hd Hh Hm Hs. unfold pretty_time.
  set (x := d * 86400 + h * 3600 + m * 60 + sec).
  assert (Hx : 0 <= x) by (subst x; lia).
  rewrite (proj2 (Z.ltb_ge x 0)) by lia. rewrite Z.abs_eq by lia.
  assert (E1 : x / 86400 = d) by (subst x; symmetry; apply Z.div_unique with (h * 3600 + m * 60 + sec); lia).
  assert (E2 : x mod 86400 = h * 3600 + m * 60 + sec)
    by (subst x; symmetry; apply Z.mod_unique with d; lia).
  rewrite E1, E2.
  assert (E3 : (h * 3600 + m * 60 + sec) / 3600 = h) by (symmetry; apply Z.div_unique with (m * 60 + sec); lia).
  assert (E4 : (h * 3600 + m * 60 + sec) mod 3600 = m * 60 + sec) by (symmetry; apply Z.mod_unique with h; lia).
  rewrite E3, E4.
  assert (E5 : (m * 60 + sec) / 60 = m) by (symmetry; apply Z.div_unique with sec; lia).
  assert (E6 : (m * 60 + sec) mod 60 = sec) by (symmetry; apply Z.mod_unique with m; lia).
  rewrite E5, E6.
  rewrite (proj2 (Z.ltb_lt 0 d)) by lia. reflexivity.
Qed.

(** X2. [pretty_time] of a negative duration is a minus sign followed by [pretty_time] of its absolute value. *)
Theorem pretty_time_negative :
  forall x : Z, 0 < x -> pretty_time (- x) = "-" ++ pretty_time x.
Proof.
  intros x Hx. unfold pretty_time.
  rewrite (proj2 (Z.ltb_lt (- x) 0)) by lia. rewrite (proj2 (Z.ltb_ge x 0)) by lia.
  rewrite Z.abs_opp, Z.abs_eq by lia.
  destruct (0 <? x / 86400); [reflexivity|].
  destruct (0 <? _); [reflexivity|]. destruct (0 <? _); reflexivity.
Qed.

Lemma fold_insert_lookup (rows : list (string * string)) (m : gmap string string) k :
  fold_left (fun d row => <[fst row := snd row]> d) rows m !! k
  = match last_value k rows with Some v => Some v | None => m !! k end.
Proof.
  revert m. induction rows as [|[a b] r IH]; intros m; simpl; [reflexivity|].
  rewrite IH. destruct (last_value k r); [reflexivity|].
  destruct (String.eqb_spec a k) as [->|Hne].
  - apply lookup_insert_eq.
  - apply lookup_insert_ne. exact Hne.
Qed.

Lemma last_value_in k rows v : last_value k rows = Some v -> In k (map fst rows).
Proof.
  revert v. induction rows as [|[a b] r IH]; intros v; simpl; [discriminate|].
  destruct (last_value k r) as [w|] eqn:E; [intros _; right; exact (IH w eq_refl)|].
  destruct (String.eqb_spec a k); [auto|discriminate].
Qed.

Lemma last_value_none k rows : ~ In k (map fst rows) -> last_value k rows = None.
Proof. intros Hn. destruct (last_value k rows) as [w|] eqn:E; [|reflexivity].
  exfalso. exact (Hn (last_value_in k rows w E)). Qed.

Lemma last_value_spec k rows v :
  last_value k rows = Some v <->
  exists pre post, rows = app pre ((k, v) :: post) /\ ~ In k (map fst post).
Proof.
  induction rows as [|[a b] r IH]; simpl.
  - split; [discriminate|]. intros (pre & post & E & _). destruct pre; discriminate.
  - destruct (last_value k r) as [v'|] eqn:Ek.
    + split.
      * intros [= <-]. destruct (proj1 IH eq_refl) as (pre & post & -> & Hn).
        exists ((a, b) :: pre), post. split; [reflexivity|exact Hn].
      * intros (pre & post & E & Hn). destruct pre as [|p pre].
        -- injection E as -> -> ->. exfalso. rewrite (last_value_none k post Hn) in Ek.
           discriminate.
        -- injection E as _ E. apply IH. exists pre, post. auto.
    + split.
      * destruct (String.eqb_spec a k) as [->|]; [|discriminate]. intros [= ->].
        exists [], r. split; [reflexivity|].
        intros Hin. apply in_map_iff in Hin as [[k' v'] [Hk Hin]]. simpl in Hk. subst k'.
        clear -Hin Ek. induction r as [|[a' b'] r' IHr]; [destruct Hin|].
        simpl in Ek. destruct (last_value k r'); [discriminate|].
        destruct Hin as [[= -> ->]|Hin]; [rewrite String.eqb_refl in Ek; discriminate|].
        exact (IHr eq_refl Hin).
      * intros (pre & post & E & Hn). destruct pre as [|p pre].
        -- injection E as -> -> ->. rewrite String.eqb_refl. reflexivity.
        -- injection E as _ E. exfalso.
           assert (Hs : None = Some v) by (apply IH; exists pre, post; auto).
           discriminate.
Qed.

(** X3. [_global_status] and [_global_variables] map a name to a value exactly when some row carries that name and value and no later row carries the name again: the last row wins. *)
Theorem load_variables_last_row_wins :
  forall (rows : list (string * string)) (k v : string),
    load_variables rows !! k = Some v <->
    exists pre post, rows = app pre ((k, v) :: post) /\ ~ In k (map fst post).
Proof.
  intros rows k v. unfold load_variables. rewrite fold_insert_lookup.
  rewrite <- last_value_spec. destruct (last_value k rows); [reflexivity|].
  rewrite lookup_empty. split; discriminate.
Qed.


(** X5. When the relay master log file of the slave is not among the master binary logs, the byte lag is minus Exec_Master_Log_Pos. *)
Theorem primary_lag_relay_file_absent :
  forall (slave : slave_status) (logs : list (string * Z)),
    ~ In (Relay_Master_Log_File slave) (map fst logs) ->
    diff_binlog_primary slave logs = - Exec_Master_Log_Pos slave.
Proof.
  intros slave logs Hn. unfold diff_binlog_primary.
  assert (H : forall a, master_log_ahead_loop (Relay_Master_Log_File slave) logs false a = a).
  { clear -Hn. induction logs as [|[n sz] r IH]; intros a; simpl; [reflexivity|].
    simpl in Hn. destruct (String.eqb_spec n (Relay_Master_Log_File slave)) as [E|E].
    - exfalso. apply Hn. left. exact E.
    - apply IH. intros Hin. apply Hn. right. exact Hin. }
  rewrite H. lia.
Qed.

(** X6. [check_threads_usage] raises TypeError when innodb_thread_concurrency is missing from the server variables (the comparison of None with 0), unless reading Threads_running raised first. *)
Theorem threads_usage_missing_concurrency_raises :
  forall (status vars : variables) (warning critical : Z) (s : server),
    vars !! "innodb_thread_concurrency" = None ->
    check_threads_usage status vars warning critical s
    = match get_float0 status "Threads_running" with
      | Ok _ => Raise TypeError
      | Raise e => Raise e
      end.
Proof.
  intros status vars warning critical s H. unfold check_threads_usage, get_float0.
  destruct (py_float_int _); [|reflexivity]. simpl. unfold var_get. rewrite H. reflexivity.
Qed.

(** X7. [check_connections] raises ZeroDivisionError when max_connections is missing or 0, unless reading Threads_connected raised first. *)
Theorem connections_missing_max_raises :
  forall (status vars : variables) (warning : Z) (critical : pyval) (s : server),
    vars !! "max_connections" = None \/ vars !! "max_connections" = Some "0" ->
    check_connections status vars warning critical s
    = match get_float0 status "Threads_connected" with
      | Ok _ => Raise ZeroDivisionError
      | Raise e => Raise e
      end.
Proof.
  intros status vars warning critical s H. unfold check_connections.
  destruct (get_float0 status _); [|reflexivity]. simpl.
  unfold get_float0. destruct H as [-> | ->]; reflexivity.
Qed.

(** X8. [check_connections] with a critical threshold given as a string (the option has no int type) never adds a critical message and never raises the state above WARNING. *)
Theorem connections_string_critical_never_critical :
  forall (status vars : variables) (warning : Z) (critical : string) (s s' : server),
    check_connections status vars warning (VStr critical) s = Ok s' ->
    msgs_critical s' = msgs_critical s /\
    (_state s' <= Nat.max (_state s) state_warning)%nat.
Proof.
  intros status vars warning critical s s'. unfold check_connections.
  destruct (get_float0 status _) as [a|]; [|discriminate]; simpl.
  destruct (get_float0 vars _) as [b|]; [|discriminate]; simpl.
  destruct (b =? 0); [discriminate|]. simpl.
  destruct (_ <=? _); intros [= <-]; autorewrite with server; split; auto;
    unfold state_warning; lia.
Qed.

(** X9. [check_liquibase] with no lock table found appends one warning naming the table and sets the state to WARNING, and adds nothing else. *)
Theorem liquibase_missing_lock_table :
  forall run_all run_one (database table : string) (warning critical : Z) (s : server),
    run_all (liquibase_tables_query database table) = Ok [] ->
    check_liquibase run_all run_one database table warning critical s
    = Ok (_set_state state_warning
            (append_warning ("Liquibase lock table " ++ table ++ " not found") s)).
Proof.
  intros run_all run_one database table warning critical s H.
  unfold check_liquibase. rewrite H. simpl.
  rewrite _set_state_max, state_append_warning.
  destruct (Nat.max _ _) eqn:E; [unfold state_warning in E; lia|reflexivity].
Qed.

Lemma collect_locks_in run_one tables name schema r locks :
  In (name, schema) tables ->
  run_one (liquibase_lock_query schema name) = Ok (Some r) ->
  collect_locks run_one tables = Ok locks ->
  In (r, schema) locks.
Proof.
  revert locks. induction tables as [|[n sc] rest IH]; intros locks Hin Hq; [destruct Hin|].
  simpl. destruct (run_one (liquibase_lock_query sc n)) as [res|] eqn:Er; [|discriminate]. simpl.
  destruct (collect_locks run_one rest) as [ls|]; [|discriminate]. simpl. intros [= <-].
  destruct Hin as [[= -> ->]|Hin].
  - rewrite Hq in Er. injection Er as <-. left. reflexivity.
  - specialize (IH ls Hin Hq eq_refl). destruct res; [right|]; exact IH.
Qed.

Lemma prefix_in {A} (l l' : list A) x : l `prefix_of` l' -> In x l -> In x l'.
Proof. intros [k ->] H. apply in_or_app. left. exact H. Qed.

Lemma liquibase_fold_reports w c locks l x :
  In l locks -> c <= SECONDS (fst l) -> w <= SECONDS (fst l) ->
  let y := fold_left (liquibase_report w c) locks x in
  In (liquibase_lock_msg l) (msgs_critical y) /\
  In (liquibase_lock_msg l) (msgs_warning y) /\
  (state_critical <= _state y)%nat.
Proof.
  intros Hin Hc Hw. revert x. induction locks as [|l' rest IH]; intros x; [destruct Hin|].
  simpl. destruct Hin as [->|Hin]; [|apply IH, Hin].
  set (x1 := liquibase_report w c x l).
  assert (H1 : In (liquibase_lock_msg l) (msgs_critical x1) /\
               In (liquibase_lock_msg l) (msgs_warning x1) /\
               (state_critical <= _state x1)%nat).
  { subst x1. unfold liquibase_report.
    rewrite (proj2 (Z.leb_le c _) Hc), (proj2 (Z.leb_le w _) Hw).
    autorewrite with server. repeat split.
    - apply in_or_app. right. left. reflexivity.
    - apply in_or_app. right. left. reflexivity.
    - lia. }
  destruct (liquibase_fold_keeps x1 w c rest x1 (keeps_refl x1)) as [[Hs (_ & Hwp & Hcp & _)] _].
  destruct H1 as (H1 & H2 & H3). repeat split.
  - eapply prefix_in; eassumption.
  - eapply prefix_in; eassumption.
  - lia.
Qed.

(** X10. In [check_liquibase] a lock held at least [critical] and at least [warning] seconds is reported both as a critical and as a warning message, and the state becomes CRITICAL. *)
Theorem liquibase_critical_lock_also_warning :
  forall run_all run_one (database table : string) (warning critical : Z)
         (s s' : server) tables (name schema : string) (r : lock_row),
    run_all (liquibase_tables_query database table) = Ok tables ->
    In (name, schema) tables ->
    run_one (liquibase_lock_query schema name) = Ok (Some r) ->
    critical <= SECONDS r -> warning <= SECONDS r ->
    check_liquibase run_all run_one database table warning critical s = Ok s' ->
    In (liquibase_lock_msg (r, schema)) (msgs_critical s') /\
    In (liquibase_lock_msg (r, schema)) (msgs_warning s') /\
    (state_critical <= _state s')%nat.
Proof.
  intros run_all run_one database table warning critical s s' tables name schema r
    Ht Hin Hq Hc Hw. unfold check_liquibase. rewrite Ht. simpl.
  destruct tables as [|t ts]; [destruct Hin|].
  destruct (collect_locks run_one (t :: ts)) as [locks|] eqn:El; [|discriminate]. simpl.
  intros [= <-].
  pose proof (collect_locks_in _ _ _ _ _ _ Hin Hq El) as Hl.
  destruct (liquibase_fold_reports warning critical locks _ s Hl Hc Hw) as (H1 & H2 & H3).
  autorewrite with server.
  destruct (Nat.eqb _ _); autorewrite with server; auto.
Qed.

Lemma liquibase_report_ok w c x l :
  msgs_ok (liquibase_report w c x l) = msgs_ok x /\
  (_state x <= _state (liquibase_report w c x l))%nat.
Proof.
  unfold liquibase_report. destruct (c <=? _), (w <=? _); autorewrite with server;
    split; auto; lia.
Qed.

Lemma liquibase_fold_ok w c locks x :
  msgs_ok (fold_left (liquibase_report w c) locks x) = msgs_ok x /\
  (_state x <= _state (fold_left (liquibase_report w c) locks x))%nat.
Proof.
  revert x. induction locks as [|l r IH]; intros x; simpl; [split; auto|].
  destruct (liquibase_report_ok w c x l) as [E1 E2].
  destruct (IH (liquibase_report w c x l)) as [E3 E4]. split; [congruence|lia].
Qed.

(** X11. [check_liquibase] appends the line Liquibase locks to the OK messages exactly when the global state is still OK after the check, also when an earlier check set it; it never lowers the state. *)
Theorem liquibase_ok_line_needs_global_ok :
  forall run_all run_one (database table : string) (warning critical : Z) (s s' : server),
    check_liquibase run_all run_one database table warning critical s = Ok s' ->
    msgs_ok s' = app (msgs_ok s)
                   (if Nat.eqb (_state s') state_ok then ["Liquibase locks"] else []) /\
    (_state s <= _state s')%nat.
Proof.
  intros run_all run_one database table warning critical s s'. unfold check_liquibase.
  destruct (run_all _) as [tables|]; [|discriminate]. simpl.
  assert (Hls : forall ls, match tables with
                | [] => Ok ([], _set_state state_warning
                      (append_warning ("Liquibase lock table " ++ table ++ " not found") s))
                | _ :: _ => let! locks := collect_locks run_one tables in Ok (locks, s)
                end = Ok ls -> msgs_ok (snd ls) = msgs_ok s /\ (_state s <= _state (snd ls))%nat).
  { intros ls. destruct tables as [|t ts].
    - intros [= <-]. simpl. autorewrite with server. split; auto; lia.
    - destruct (collect_locks run_one (t :: ts)); [|discriminate]. intros [= <-]. simpl. auto. }
  destruct (match tables with _ => _ end) as [ls|] eqn:E; [|discriminate]. simpl.
  intros [= <-]. destruct (Hls ls eq_refl) as [O1 S1].
  destruct (liquibase_fold_ok warning critical (fst ls) (snd ls)) as [O2 S2].
  set (y := fold_left _ _ _) in *.
  destruct (Nat.eqb (_state y) state_ok) eqn:Ey; autorewrite with server;
    rewrite ?Ey; rewrite ?app_nil_r; split; try congruence; lia.
Qed.

(** X12. [check_definer] never adds a critical message, always appends one OK line naming the targets, and raises the state to at most WARNING. *)
Theorem definer_never_critical :
  forall (dict_repr : accounts -> string) run_all (targets : list string) (s s' : server),
    check_definer dict_repr run_all targets s = Ok s' ->
    msgs_critical s' = msgs_critical s /\
    msgs_ok s' = app (msgs_ok s) ["Definer for " ++ String.concat "/" targets] /\
    (_state s' <= Nat.max (_state s) state_warning)%nat.
Proof.
  intros dr ra targets s s'. unfold check_definer.
  destruct (definer_broken ra targets) as [b|]; [|discriminate]. simpl. intros H.
  eapply (py_fold_inv (fun x => msgs_critical x = msgs_critical s /\
            msgs_ok x = app (msgs_ok s) ["Definer for " ++ String.concat "/" targets] /\
            (_state x <= Nat.max (_state s) state_warning)%nat)); [|exact H|].
  - intros a x a' Hf (H1 & H2 & H3). cbv beta in Hf.
    destruct (b !! x) as [bt|]; [|discriminate].
    destruct (Nat.ltb _ _); injection Hf as <-; autorewrite with server;
      repeat split; auto; lia.
  - autorewrite with server. repeat split; auto; lia.
Qed.












Lemma existsb_eqb_in (a : string) l : existsb (String.eqb a) l = true <-> In a l.
Proof.
  rewrite existsb_exists. split.
  - intros (x & Hx & Hq). apply String.eqb_eq in Hq. subst. exact Hx.
  - intros Hin. exists a. split; [exact Hin|apply String.eqb_refl].
Qed.

Lemma plainb_iff a : plainb a = true <-> In a valid_connection_params /\ ~ In a valid_ssl_params.
Proof.
  unfold plainb, sslb. rewrite andb_true_iff, negb_true_iff, <- not_true_iff_false,
    !existsb_eqb_in. reflexivity.
Qed.

Lemma sslb_valid a : sslb a = true -> existsb (String.eqb a) valid_connection_params = true.
Proof.
  unfold sslb, valid_connection_params. intros H. rewrite existsb_app, H. apply orb_true_r.
Qed.

Lemma step_fst acc a v k :
  fst (connection_step acc (a, v)) !! k =
  if String.eqb a k && plainb a && py_truthy v then Some (CVal v) else fst acc !! k.
Proof.
  unfold connection_step, plainb, sslb. cbn [fst snd].
  destruct (existsb (String.eqb a) valid_connection_params), (py_truthy v),
    (existsb (String.eqb a) valid_ssl_params); cbn [fst snd andb negb];
    rewrite ?andb_false_r, ?andb_true_r; try reflexivity.
  destruct (String.eqb_spec a k) as [->|Hne].
  - apply lookup_insert_eq.
  - apply lookup_insert_ne. exact Hne.
Qed.

Lemma step_snd acc a v k :
  snd (connection_step acc (a, v)) !! k =
  if sslb a && py_truthy v && String.eqb (py_lstrip "ssl_" a) k then Some v
  else snd acc !! k.
Proof.
  unfold connection_step. cbn [fst snd]. destruct (sslb a) eqn:Es.
  - rewrite (sslb_valid a Es). unfold sslb in Es. rewrite Es.
    destruct (py_truthy v); simpl; [|reflexivity].
    destruct (String.eqb_spec (py_lstrip "ssl_" a) k) as [<-|Hne].
    + apply lookup_insert_eq.
    + apply lookup_insert_ne. exact Hne.
  - cbn [andb]. unfold sslb in Es. rewrite Es.
    destruct (existsb (String.eqb a) valid_connection_params), (py_truthy v); reflexivity.
Qed.

Lemma fold_fst_notin args acc k :
  (forall v, In (k, v) args -> plainb k && py_truthy v = false) ->
  fst (fold_left connection_step args acc) !! k = fst acc !! k.
Proof.
  revert acc. induction args as [|[a va] rest IH]; intros acc H; simpl; [reflexivity|].
  rewrite IH by (intros v Hin; apply H; right; exact Hin).
  rewrite step_fst. destruct (String.eqb_spec a k) as [->|]; [|reflexivity].
  cbn [andb]. rewrite (H va (or_introl eq_refl)). reflexivity.
Qed.

Lemma fold_fst_in args acc k v :
  List.NoDup (map fst args) -> In (k, v) args ->
  fst (fold_left connection_step args acc) !! k =
  if plainb k && py_truthy v then Some (CVal v) else fst acc !! k.
Proof.
  revert acc. induction args as [|[a va] rest IH]; intros acc Hnd Hin; [destruct Hin|].
  simpl in Hnd. apply NoDup_cons_iff in Hnd as [Ha Hnd]. simpl.
  destruct Hin as [[= -> ->]|Hin].
  - rewrite fold_fst_notin.
    + rewrite step_fst, String.eqb_refl. reflexivity.
    + intros v' Hin'. exfalso. apply Ha. apply in_map_iff. exists (k, v'). auto.
  - assert (Hne : a <> k).
    { intros ->. apply Ha. apply in_map_iff. exists (k, v). auto. }
    rewrite (IH _ Hnd Hin), step_fst.
    destruct (String.eqb_spec a k); [contradiction|reflexivity].
Qed.

Lemma strip_inj a p :
  sslb a = true -> sslb p = true -> py_lstrip "ssl_" a = py_lstrip "ssl_" p -> a = p.
Proof.
  unfold sslb. rewrite !existsb_eqb_in. simpl.
  intros Ha Hp. repeat destruct Ha as [<-|Ha]; try contradiction;
    repeat destruct Hp as [<-|Hp]; try contradiction; vm_compute; congruence.
Qed.

Lemma fold_snd_notin args acc p :
  sslb p = true ->
  (forall v, In (p, v) args -> py_truthy v = false) ->
  snd (fold_left connection_step args acc) !! py_lstrip "ssl_" p
  = snd acc !! py_lstrip "ssl_" p.
Proof.
  intros Hp. revert acc. induction args as [|[a va] rest IH]; intros acc H; simpl; [reflexivity|].
  rewrite IH by (intros v Hin; apply H; right; exact Hin).
  rewrite step_snd. destruct (sslb a) eqn:Ea; [|reflexivity].
  destruct (py_truthy va) eqn:Et; [|reflexivity].
  destruct (String.eqb_spec (py_lstrip "ssl_" a) (py_lstrip "ssl_" p)) as [E|]; [|reflexivity].
  pose proof (strip_inj a p Ea Hp E) as ->.
  rewrite (H va (or_introl eq_refl)) in Et. discriminate.
Qed.

Lemma fold_snd_in args acc p v :
  List.NoDup (map fst args) -> sslb p = true -> In (p, v) args ->
  snd (fold_left connection_step args acc) !! py_lstrip "ssl_" p
  = if py_truthy v then Some v else snd acc !! py_lstrip "ssl_" p.
Proof.
  intros Hnd Hp. revert acc Hnd. induction args as [|[a va] rest IH]; intros acc Hnd Hin;
    [destruct Hin|].
  simpl in Hnd. apply NoDup_cons_iff in Hnd as [Ha Hnd]. simpl.
  destruct Hin as [[= -> ->]|Hin].
  - rewrite fold_snd_notin; [|exact Hp|].
    + rewrite step_snd, Hp, String.eqb_refl. simpl.
      destruct (py_truthy v); reflexivity.
    + intros v' Hin'. exfalso. apply Ha. apply in_map_iff. exists (p, v'). auto.
  - assert (Hne : a <> p).
    { intros ->. apply Ha. apply in_map_iff. exists (p, v). auto. }
    rewrite (IH _ Hnd Hin), step_snd.
    destruct (sslb a) eqn:Ea; [|reflexivity]. destruct (py_truthy va); [|reflexivity].
    destruct (String.eqb_spec (py_lstrip "ssl_" a) (py_lstrip "ssl_" p)) as [E|]; [|reflexivity].
    exfalso. exact (Hne (strip_inj a p Ea Hp E)).
Qed.

Lemma ssl_not_plain : plainb "ssl" = false.
Proof. reflexivity. Qed.

Lemma parse_lookup_ne args k :
  k <> "ssl" -> parse_connection_args args !! k = fst (fold_left connection_step args (∅, ∅)) !! k.
Proof.
  intros Hk. unfold parse_connection_args.
  destruct (Nat.ltb 0 _); [apply lookup_insert_ne; congruence|reflexivity].
Qed.

(** X14. [parse_connection_args] yields only the valid connection parameters other than the ssl ones, and the key ssl. *)
Theorem parse_connection_args_keys :
  forall (args : list (string * pyval)) (k : string) (c : connval),
    parse_connection_args args !! k = Some c ->
    (In k valid_connection_params /\ ~ In k valid_ssl_params) \/ k = "ssl".
Proof.
  intros args k c H. destruct (String.eqb_spec k "ssl") as [->|Hk]; [right; reflexivity|].
  left. apply plainb_iff. destruct (plainb k) eqn:Ep; [reflexivity|].
  rewrite parse_lookup_ne, fold_fst_notin in H by (exact Hk || (intros; rewrite Ep; reflexivity)).
  cbn [fst snd] in H; rewrite lookup_empty in H. discriminate.
Qed.

(** X15. With distinct argument names, [parse_connection_args] keeps a plain connection parameter exactly when the argument has a true value, with that value. *)
Theorem parse_connection_args_plain :
  forall (args : list (string * pyval)) (k : string) (v : pyval),
    List.NoDup (map fst args) ->
    In k valid_connection_params -> ~ In k valid_ssl_params ->
    parse_connection_args args !! k = Some (CVal v) <->
    In (k, v) args /\ py_truthy v = true.
Proof.
  intros args k v Hnd Hv Hs.
  assert (Hp : plainb k = true) by (apply plainb_iff; auto).
  assert (Hk : k <> "ssl") by (intros ->; rewrite ssl_not_plain in Hp; discriminate).
  rewrite parse_lookup_ne by exact Hk. split.
  - destruct (in_dec string_dec k (map fst args)) as [Hin|Hin].
    + apply in_map_iff in Hin as [[k' v'] [Hk' Hin]]. simpl in Hk'. subst k'.
      rewrite (fold_fst_in _ _ _ _ Hnd Hin), Hp. simpl.
      destruct (py_truthy v') eqn:Et; [|cbn [fst snd]; rewrite lookup_empty; discriminate].
      intros [= <-]. auto.
    + rewrite fold_fst_notin.
      * cbn [fst snd]; rewrite lookup_empty. discriminate.
      * intros v' Hin'. exfalso. apply Hin. apply in_map_iff. exists (k, v'). auto.
  - intros [Hin Ht]. rewrite (fold_fst_in _ _ _ _ Hnd Hin), Hp, Ht. reflexivity.
Qed.

(** X16. With distinct argument names, an ssl parameter with a true value ends up, with its ssl_ prefix stripped, in the dictionary under the key ssl, and only those do. *)
Theorem parse_connection_args_ssl :
  forall (args : list (string * pyval)) (p k : string) (v : pyval),
    List.NoDup (map fst args) ->
    In (p, k) [("ssl_key", "key"); ("ssl_cert", "cert"); ("ssl_ca", "ca");
               ("ssl_capath", "capath")] ->
    (In (p, v) args /\ py_truthy v = true) <->
    exists d, parse_connection_args args !! "ssl" = Some (CDict d) /\ d !! k = Some v.
Proof.
  intros args p k v Hnd Hpk.
  assert (Hp : sslb p = true /\ k = py_lstrip "ssl_" p).
  { simpl in Hpk. repeat destruct Hpk as [[= <- <-]|Hpk]; try contradiction;
      split; reflexivity. }
  destruct Hp as [Hp ->]. unfold parse_connection_args.
  set (acc := fold_left connection_step args (∅, ∅)). split.
  - intros [Hin Ht].
    assert (Hl : snd acc !! py_lstrip "ssl_" p = Some v)
      by (subst acc; rewrite (fold_snd_in _ _ _ _ Hnd Hp Hin), Ht; reflexivity).
    assert (Hsz : Nat.ltb 0 (size (snd acc)) = true).
    { apply Nat.ltb_lt. destruct (size (snd acc)) eqn:E; [|lia].
      apply map_size_empty_inv in E. rewrite E, lookup_empty in Hl. discriminate. }
    rewrite Hsz, lookup_insert_eq. eexists. split; [reflexivity|exact Hl].
  - intros (d & Hd & Hk).
    destruct (Nat.ltb 0 (size (snd acc))).
    + rewrite lookup_insert_eq in Hd. injection Hd as <-.
      destruct (in_dec string_dec p (map fst args)) as [Hin|Hin].
      * apply in_map_iff in Hin as [[p' v'] [Hp' Hin]]. simpl in Hp'. subst p'.
        subst acc. rewrite (fold_snd_in _ _ _ _ Hnd Hp Hin) in Hk.
        destruct (py_truthy v') eqn:Et; [|cbn [fst snd] in Hk; rewrite lookup_empty in Hk; discriminate].
        injection Hk as <-. auto.
      * subst acc. rewrite fold_snd_notin in Hk; [cbn [fst snd] in Hk; rewrite lookup_empty in Hk; discriminate|exact Hp|].
        intros v' Hin'. exfalso. apply Hin. apply in_map_iff. exists (p, v'). auto.
    + subst acc. rewrite fold_fst_notin in Hd; [cbn [fst snd] in Hd; rewrite lookup_empty in Hd; discriminate|].
      intros. rewrite ssl_not_plain. reflexivity.
Qed.

Lemma status_exit_code_in_range_witness :
  exists out code,
    status bytes_text (check_connections (w_status lagging_world) (w_variables lagging_world) 85 (VInt 95))
      (check_liquibase one_lock_table held_lock "" "DATABASECHANGELOGLOCK" 900 3600)
      (check_definer empty_repr definer_db ["views"]) lagging_world all_checks_args server_init
    = Ok (out, code) /\ (code <= state_critical)%nat.
Proof.
  destruct (status_checks bytes_text
              (check_connections (w_status lagging_world) (w_variables lagging_world) 85 (VInt 95))
              (check_liquibase one_lock_table held_lock "" "DATABASECHANGELOGLOCK" 900 3600)
              (check_definer empty_repr definer_db ["views"]) lagging_world all_checks_args
              server_init) as [s'|e] eqn:H; [|vm_compute in H; discriminate].
  destruct (status_exit_code_in_range _ _ _ _ _ _ _ _ _ _ _ _ _ _ _ H) as (out & H1 & H2).
  exists out, (_state s'). split; assumption.
Defined.

Lemma pretty_time_days_hours_minutes_seconds_witness :
  pretty_time (1 * 86400 + 2 * 3600 + 3 * 60 + 4) = "1d2h3m4s".
Proof. rewrite (pretty_time_days_hours_minutes_seconds 1 2 3 4) by lia. reflexivity. Defined.

Lemma pretty_time_negative_witness : pretty_time (Z.opp 90) = "-1m30s".
Proof. rewrite (pretty_time_negative 90) by lia. reflexivity. Defined.


Lemma primary_lag_relay_file_absent_witness :
  diff_binlog_primary scenario_e_slave [("mysql-bin.000010", 1048576)] = -500000.
Proof.
  apply primary_lag_relay_file_absent. simpl. intros [H|[]]. discriminate H.
Defined.

Lemma threads_usage_missing_concurrency_raises_witness :
  check_threads_usage ∅ ∅ 60 95 server_init = Raise TypeError.
Proof. rewrite threads_usage_missing_concurrency_raises by reflexivity. reflexivity. Defined.

Lemma connections_missing_max_raises_witness :
  check_connections (<["Threads_connected" := "50"]> ∅) ∅ 85 (VInt 95) server_init
  = Raise ZeroDivisionError.
Proof. rewrite connections_missing_max_raises by (left; reflexivity). reflexivity. Defined.

Lemma connections_string_critical_never_critical_witness :
  exists s', check_connections (<["Threads_connected" := "190"]> (w_status lagging_world)) (w_variables lagging_world) 85 (VStr "90") server_init = Ok s' /\
    msgs_critical s' = [].
Proof.
  destruct (check_connections (<["Threads_connected" := "190"]> (w_status lagging_world)) (w_variables lagging_world) 85 (VStr "90") server_init) as [s'|e] eqn:H;
    [|vm_compute in H; discriminate].
  exists s'. split; [reflexivity|].
  exact (proj1 (connections_string_critical_never_critical _ _ _ _ _ _ H)).
Defined.

(** X18. The checks run by [status] only append to the messages and the performance data and never lower the state. *)
Theorem status_checks_only_append :
  forall ps w a cw cc ra ro db tb lw lc dr rd targets s s',
    status_checks ps (check_connections (w_status w) (w_variables w) cw cc)
      (check_liquibase ra ro db tb lw lc) (check_definer dr rd targets) w a s = Ok s' ->
    (_state s <= _state s')%nat /\
    msgs_ok s `prefix_of` msgs_ok s' /\ msgs_warning s `prefix_of` msgs_warning s' /\
    msgs_critical s `prefix_of` msgs_critical s' /\ _perf_data s `prefix_of` _perf_data s'.
Proof.
  intros until s'. intros H. exact (proj1 (status_checks_keeps _ _ _ _ _ _ _ _ _ _ _ _ _ _ _ _ H)).
Qed.

Lemma status_checks_only_append_witness :
  exists s', status_checks bytes_text
      (check_connections (w_status lagging_world) (w_variables lagging_world) 85 (VInt 95))
      (check_liquibase one_lock_table held_lock "" "DATABASECHANGELOGLOCK" 900 3600)
      (check_definer empty_repr definer_db ["views"]) lagging_world all_checks_args
      server_init = Ok s' /\ (_state server_init <= _state s')%nat.
Proof.
  destruct (status_checks bytes_text
              (check_connections (w_status lagging_world) (w_variables lagging_world) 85 (VInt 95))
              (check_liquibase one_lock_table held_lock "" "DATABASECHANGELOGLOCK" 900 3600)
              (check_definer empty_repr definer_db ["views"]) lagging_world all_checks_args
              server_init) as [s'|e] eqn:H; [|vm_compute in H; discriminate].
  exists s'. split; [reflexivity|].
  exact (proj1 (status_checks_only_append _ _ _ _ _ _ _ _ _ _ _ _ _ _ _ _ H)).
Defined.

Lemma liquibase_missing_lock_table_witness :
  check_liquibase (fun _ => Ok []) no_lock "" "DATABASECHANGELOGLOCK" 900 3600 server_init
  = Ok (_set_state state_warning
          (append_warning ("Liquibase lock table " ++ "DATABASECHANGELOGLOCK" ++ " not found")
             server_init)).
Proof. apply liquibase_missing_lock_table. reflexivity. Defined.

Lemma liquibase_critical_lock_also_warning_witness :
  exists s', check_liquibase one_lock_table held_lock "" "DATABASECHANGELOGLOCK" 900 3600
               server_init = Ok s' /\
    In (liquibase_lock_msg (mkLock "deployer" 7200, "app")) (msgs_warning s').
Proof.
  destruct (check_liquibase one_lock_table held_lock "" "DATABASECHANGELOGLOCK" 900 3600
              server_init) as [s'|e] eqn:H; [|vm_compute in H; discriminate].
  exists s'. split; [reflexivity|].
  refine (proj1 (proj2 (liquibase_critical_lock_also_warning _ _ _ _ _ _ _ _
            [("DATABASECHANGELOGLOCK", "app")] "DATABASECHANGELOGLOCK" "app"
            (mkLock "deployer" 7200) eq_refl _ eq_refl _ _ H))).
  - left. reflexivity.
  - simpl. lia.
  - simpl. lia.
Defined.

Lemma liquibase_ok_line_needs_global_ok_witness :
  exists s', check_liquibase one_lock_table no_lock "" "DATABASECHANGELOGLOCK" 900 3600
               (_set_state state_warning (append_warning "Threads usage 70%" server_init))
             = Ok s' /\
    msgs_ok s' = app (msgs_ok (_set_state state_warning (append_warning "Threads usage 70%" server_init)))
                   (if Nat.eqb (_state s') state_ok then ["Liquibase locks"] else []).
Proof.
  destruct (check_liquibase one_lock_table no_lock "" "DATABASECHANGELOGLOCK" 900 3600
              (_set_state state_warning (append_warning "Threads usage 70%" server_init)))
    as [s'|e] eqn:H; [|vm_compute in H; discriminate].
  exists s'. split; [reflexivity|].
  exact (proj1 (liquibase_ok_line_needs_global_ok _ _ _ _ _ _ _ _ H)).
Defined.

Lemma definer_never_critical_witness :
  exists s', check_definer empty_repr definer_db ["views"; "routines"] server_init = Ok s' /\
    msgs_critical s' = msgs_critical server_init.
Proof.
  destruct (check_definer empty_repr definer_db ["views"; "routines"] server_init)
    as [s'|e] eqn:H; [|vm_compute in H; discriminate].
  exists s'. split; [reflexivity|].
  exact (proj1 (definer_never_critical _ _ _ _ _ H)).
Defined.


Lemma parse_connection_args_keys_witness :
  parse_connection_args sample_connection_args !! "host" = Some (CVal (VStr "db1")) /\
  ((In "host" valid_connection_params /\ ~ In "host" valid_ssl_params) \/ "host" = "ssl").
Proof.
  split; [reflexivity|]. apply (parse_connection_args_keys sample_connection_args "host" (CVal (VStr "db1"))).
  reflexivity.
Defined.

Lemma sample_connection_args_nodup : List.NoDup (map fst sample_connection_args).
Proof.
  simpl. repeat constructor; simpl; intuition discriminate.
Qed.

Lemma parse_connection_args_plain_witness :
  parse_connection_args sample_connection_args !! "port" <> Some (CVal (VInt 0)).
Proof.
  intros E. apply (parse_connection_args_plain sample_connection_args "port" (VInt 0)) in E.
  - destruct E as [_ E]. discriminate E.
  - exact sample_connection_args_nodup.
  - simpl. tauto.
  - simpl. intuition discriminate.
Defined.

Lemma parse_connection_args_ssl_witness :
  exists d, parse_connection_args sample_connection_args !! "ssl" = Some (CDict d) /\
    d !! "ca" = Some (VStr "/etc/ca.pem").
Proof.
  apply (parse_connection_args_ssl sample_connection_args "ssl_ca" "ca" (VStr "/etc/ca.pem")).
  - exact sample_connection_args_nodup.
  - simpl. tauto.
  - split; [simpl; tauto | reflexivity].
Defined.

(* ------------------------------------------------------------------ *)
(** * Failures and -1 bounds over all the checks *)

Lemma nc_bind {A B} (m : py A) (k : A -> py B) :
  not_connect m -> (forall a, not_connect (k a)) -> not_connect (py_bind m k).
Proof. destruct m; simpl; auto. Qed.

Lemma nc_fold {A B} (f : A -> B -> py A) l a :
  (forall a x, not_connect (f a x)) -> not_connect (py_fold f l a).
Proof.
  intros Hf. revert a. induction l as [|x r IH]; intros a; simpl; [exact I|].
  apply nc_bind; auto.
Qed.

Ltac nc_tac :=
  repeat match goal with
  | |- not_connect (py_bind _ _) => apply nc_bind; [|intros]
  | |- not_connect (Ok _) => exact I
  | |- not_connect (Raise TypeError) => exact I
  | |- not_connect (Raise ValueError) => exact I
  | |- not_connect (Raise IndexError) => exact I
  | |- not_connect (Raise KeyError) => exact I
  | |- not_connect (Raise ZeroDivisionError) => exact I
  | |- not_connect (Raise (DbError _ _)) => exact I
  | |- not_connect (if ?b then _ else _) => destruct b
  | |- not_connect (match ?x with _ => _ end) => destruct x
  end.

Lemma nc_py_int t : not_connect (py_int t).
Proof. unfold py_int. nc_tac. Qed.

Lemma nc_py_float_int v : not_connect (py_float_int v).
Proof. destruct v; simpl; [exact I|apply nc_py_int|exact I]. Qed.

Lemma nc_py_index {A} (l : list A) i : not_connect (py_index l i).
Proof. unfold py_index. nc_tac. Qed.

Lemma nc_py_mul a b : not_connect (py_mul a b).
Proof. destruct a, b; simpl; exact I. Qed.

Lemma nc_py_sub a b : not_connect (py_sub a b).
Proof. destruct a, b; simpl; exact I. Qed.

Create HintDb ncdb.
#[local] Hint Resolve nc_py_int nc_py_float_int nc_py_index nc_py_mul nc_py_sub : ncdb.

Lemma nc_heartbeat vars write s : not_connect (check_heartbeat vars write s).
Proof.
  unfold check_heartbeat. destruct (bool_decide _); [exact I|].
  destruct write as [u|[]]; simpl; exact I.
Qed.

Lemma nc_replication ps vars sl m tw tc bw bc ig s :
  (forall logs, m = MasterConnected logs -> not_connect logs) ->
  not_connect (check_replication ps vars sl m tw tc bw bc ig s).
Proof.
  intros Hm. unfold check_replication. destruct sl as [sl|]; [|exact I].
  apply nc_bind; [|intros; exact I].
  unfold _get_replication_lag. destruct m as [|logs].
  - unfold diff_binlog_fallback. nc_tac; auto with ncdb.
  - apply nc_bind; [exact (Hm logs eq_refl)|intros; exact I].
Qed.

Lemma nc_threads st vars w c s : not_connect (check_threads_usage st vars w c s).
Proof. unfold check_threads_usage. nc_tac; auto with ncdb. Qed.

Lemma nc_user q u al w c s :
  (forall x, not_connect (q x)) -> not_connect (check_user_connections q u al w c s).
Proof. intros Hq. unfold check_user_connections. nc_tac; auto. Qed.

Lemma nc_connections st vars w c s : not_connect (check_connections st vars w c s).
Proof. unfold check_connections, get_float0. nc_tac; auto with ncdb. Qed.

Lemma nc_slave sh w c s :
  not_connect sh -> not_connect (check_slave_connections sh w c s).
Proof. intros Hs. unfold check_slave_connections. nc_tac; auto. Qed.

Lemma nc_collect_locks ro tables :
  (forall q, not_connect (ro q)) -> not_connect (collect_locks ro tables).
Proof.
  intros Hq. induction tables as [|[n sc] r IH]; simpl; [exact I|].
  apply nc_bind; [apply Hq|intros]. apply nc_bind; [exact IH|intros; exact I].
Qed.

Lemma nc_liquibase ra ro db tb lw lc s :
  (forall q, not_connect (ra q)) -> (forall q, not_connect (ro q)) ->
  not_connect (check_liquibase ra ro db tb lw lc s).
Proof.
  intros Ha Ho. unfold check_liquibase. apply nc_bind; [apply Ha|intros tables].
  apply nc_bind; [|intros; exact I].
  destruct tables; [exact I|]. apply nc_bind; [apply nc_collect_locks, Ho|intros; exact I].
Qed.

Lemma nc_definer dr rd targets s :
  (forall q, not_connect (rd q)) -> not_connect (check_definer dr rd targets s).
Proof.
  intros Hq. unfold check_definer, definer_broken. apply nc_bind.
  - apply nc_bind; [apply Hq|intros users].
    apply nc_fold. intros b t. apply nc_bind; [apply Hq|intros rows].
    apply nc_fold. intros b' row. unfold definer_row, add_broken. nc_tac.
  - intros b. apply nc_fold. intros s' t. nc_tac.
Qed.

Lemma nc_run_if b f s : (forall s, not_connect (f s)) -> not_connect (run_if b f s).
Proof. intros Hf. destruct b; simpl; [apply Hf|exact I]. Qed.

Lemma nc_status_checks ps cw cc ra ro db tb lw lc dr rd targets w a s :
  queries_raise_no_connect w ra ro rd ->
  not_connect (status_checks_all ps cw cc ra ro db tb lw lc dr rd targets w a s).
Proof.
  intros (Hm & Hu & Hs & Ha & Ho & Hd). unfold status_checks_all, status_checks.
  apply nc_bind; [apply nc_run_if; intros; apply nc_heartbeat|intros].
  apply nc_bind; [apply nc_run_if; intros; apply nc_replication, Hm|intros].
  apply nc_bind; [apply nc_run_if; intros; apply nc_threads|intros].
  apply nc_bind; [apply nc_run_if; intros; apply nc_user, Hu|intros].
  apply nc_bind; [apply nc_run_if; intros; apply nc_connections|intros].
  apply nc_bind; [apply nc_run_if; intros; apply nc_slave, Hs|intros].
  apply nc_bind; [apply nc_run_if; intros; apply nc_liquibase; assumption|intros].
  apply nc_run_if; intros; apply nc_definer, Hd.
Qed.

(** If the checks raise a non-connect exception, [status] and [main] raise it. *)
Lemma status_main_raise ps cw cc ra ro db tb lw lc dr rd targets w a s host port :
  queries_raise_no_connect w ra ro rd ->
  (exists e, status_checks_all ps cw cc ra ro db tb lw lc dr rd targets w a s = Raise e) ->
  exists e, status_all ps cw cc ra ro db tb lw lc dr rd targets w a s = Raise e /\
    main (Ok s) (status_all ps cw cc ra ro db tb lw lc dr rd targets w a) host port = Raise e.
Proof.
  intros Hq [e He]. pose proof (nc_status_checks ps cw cc ra ro db tb lw lc dr rd targets w a s Hq) as Hn.
  unfold status_checks_all in He, Hn. rewrite He in Hn.
  exists e. unfold status_all, main, status. simpl. rewrite He. simpl.
  split; [reflexivity|]. destruct e; try reflexivity. destruct Hn.
Qed.


Lemma collect_locks_raises ro tables name schema e :
  In (name, schema) tables -> ro (liquibase_lock_query schema name) = Raise e ->
  exists e', collect_locks ro tables = Raise e'.
Proof.
  intros Hin Hq. induction tables as [|[n sc] r IH]; [destruct Hin|]. simpl.
  destruct Hin as [[= -> ->]|Hin].
  - rewrite Hq. simpl. eauto.
  - apply py_bind_raises. intros res. destruct (IH Hin) as [e' He']. rewrite He'. simpl. eauto.
Qed.

Lemma py_fold_raises {A B} (f : A -> B -> py A) l x a :
  In x l -> (forall a, exists e, f a x = Raise e) -> exists e, py_fold f l a = Raise e.
Proof.
  intros Hin Hf. revert a. induction l as [|y r IH]; intros a; [destruct Hin|]. simpl.
  destruct Hin as [->|Hin].
  - destruct (Hf a) as [e He]. rewrite He. simpl. eauto.
  - apply py_bind_raises. intros a'. apply IH, Hin.
Qed.

Lemma usage_nonneg (r c : Z) : 0 <= r -> 0 < c ->
  0 <= round2_centi (Qmult (Qdiv (inject_Z r) (inject_Z c)) (inject_Z 100)).
Proof.
  intros Hr Hc. apply round2_centi_nonneg.
  apply Qmult_le_0_compat; [|unfold Qle; simpl; lia].
  unfold Qdiv. apply Qmult_le_0_compat.
  - change (Qle (inject_Z 0) (inject_Z r)). rewrite <- Zle_Qle. exact Hr.
  - apply Qinv_le_0_compat. change (Qle (inject_Z 0) (inject_Z c)).
    rewrite <- Zle_Qle. lia.
Qed.


Lemma stage_sql_perf sl s : _perf_data (stage_sql sl s) = _perf_data s.
Proof. unfold stage_sql. destruct (negb _); [destruct (negb _)|]; autorewrite with server; reflexivity. Qed.
Lemma stage_io_perf sl s : _perf_data (stage_io sl s) = _perf_data s.
Proof. unfold stage_io. destruct (negb _); autorewrite with server; reflexivity. Qed.
Lemma stage_ro_perf vars ig s : _perf_data (stage_ro vars ig s) = _perf_data s.
Proof. unfold stage_ro. destruct (_ && _); autorewrite with server; reflexivity. Qed.
Lemma stage_bytes_perf w c lb msg s : _perf_data (stage_bytes w c lb msg s) = _perf_data s.
Proof. unfold stage_bytes. destruct (c <=? lb); [|destruct (w <=? lb)]; autorewrite with server; reflexivity. Qed.


(** C4 (amended): only the heartbeat check catches the failure of its
    own query: a MySQL error of its write records CRITICAL with the error
    message and the remaining checks run as they would have. Every other
    query a check sends is uncaught: the master-log query of the
    replication check, the user-connection query, the slave-host query
    (when that check is not disabled by -1), the two queries of the
    liquibase check and the two of the definer check. When one of them
    fails (queries raise MySQL errors, never the connect exception),
    [status] raises and [main], which only catches the connect exception,
    raises the same exception: no report is printed and the later checks
    do not run. The thread-usage and connection checks send no query. *)
Theorem check_failure_isolation :
  (forall (ps : Z -> string) (cc cl cd : server -> py server) (w : world)
          (a : check_args) (s : server) (e : pyexc) (r : list string * nat),
     a_check_user_connections a = true ->
     w_user_count w (user_connections_query (a_user_connections_filter a)) = Raise e ->
     status ps cc cl cd w a s <> Ok r) /\
  (forall (ps : Z -> string) (cc cl cd : server -> py server) (w : world)
          (a : check_args) (s : server) (e : pyexc) (r : list string * nat),
     a_check_slave_connections a = true ->
     a_slave_connections_warning a <> -1 ->
     a_slave_connections_critical a <> -1 ->
     w_slave_hosts w = Raise e ->
     status ps cc cl cd w a s <> Ok r) /\
  (forall (ps : Z -> string) (cc cl cd : server -> py server) (w : world)
          (a : check_args) (s : server) (errno : Z) (m : string),
     a_check_heartbeat a = true ->
     w_variables w !! "read_only" <> Some "ON" ->
     w_heartbeat_write w = Raise (DbError errno m) ->
     status_checks ps cc cl cd w a s
       = status_checks ps cc cl cd w (disable_heartbeat a) (heartbeat_failed s m) /\
     msgs_critical (heartbeat_failed s m) = app (msgs_critical s) [heartbeat_failed_msg m] /\
     _state (heartbeat_failed s m) = Nat.max (_state s) state_critical) /\
  (forall ps cw cc ra ro db tb lw lc dr rd targets (w : world) (a : check_args)
          (s : server) (host port : string),
     queries_raise_no_connect w ra ro rd ->
     (a_check_replication a = true /\
        exists sl e, w_slave w = Some sl /\ w_master w = MasterConnected (Raise e)) \/
     (a_check_user_connections a = true /\
        exists e, w_user_count w (user_connections_query (a_user_connections_filter a))
                  = Raise e) \/
     (a_check_slave_connections a = true /\
        a_slave_connections_warning a <> -1 /\ a_slave_connections_critical a <> -1 /\
        exists e, w_slave_hosts w = Raise e) \/
     (a_check_liquibase a = true /\ exists e, ra (liquibase_tables_query db tb) = Raise e) \/
     (a_check_liquibase a = true /\
        exists tables name schema e, ra (liquibase_tables_query db tb) = Ok tables /\
          In (name, schema) tables /\ ro (liquibase_lock_query schema name) = Raise e) \/
     (a_check_definer a = true /\ exists e, rd definer_users_query = Raise e) \/
     (a_check_definer a = true /\
        exists t e, In t targets /\ rd (definer_query t) = Raise e) ->
     exists e, status_all ps cw cc ra ro db tb lw lc dr rd targets w a s = Raise e /\
       main (Ok s) (status_all ps cw cc ra ro db tb lw lc dr rd targets w a) host port
       = Raise e).
Proof.
  split; [|split; [|split]].
  - intros ps cc cl cd w a s e r Hon Hq.
    assert (Hc : exists e', status_checks ps cc cl cd w a s = Raise e').
    { unfold status_checks.
      apply py_bind_raises; intros s1. apply py_bind_raises; intros s2.
      apply py_bind_raises; intros s3.
      rewrite Hon. simpl. unfold check_user_connections. rewrite Hq. simpl. eauto. }
    destruct Hc as [e' He']. unfold status. rewrite He'. simpl. discriminate.
  - intros ps cc cl cd w a s e r Hon Hw Hc Hq.
    assert (Hx : exists e', status_checks ps cc cl cd w a s = Raise e').
    { unfold status_checks.
      do 5 (apply py_bind_raises; intros ?).
      rewrite Hon. simpl. unfold check_slave_connections.
      apply Z.eqb_neq in Hw, Hc. rewrite Hw, Hc. simpl. rewrite Hq. simpl. eauto. }
    destruct Hx as [e' He']. unfold status. rewrite He'. simpl. discriminate.
  - intros ps cc cl cd w a s errno m Hon Hro Hw.
    split; [|split].
    + unfold status_checks. rewrite Hon. simpl.
      unfold check_heartbeat. rewrite bool_decide_false by exact Hro.
      rewrite Hw. reflexivity.
    + unfold heartbeat_failed.
      rewrite (proj1 (proj2 (proj2 (_set_state_keeps _ _)))). simpl.
      rewrite (proj1 (proj2 (proj2 (_set_state_keeps _ _)))). reflexivity.
    + unfold heartbeat_failed. rewrite _set_state_max. simpl.
      rewrite _set_state_max. simpl. unfold state_ok. lia.
  - intros ps cw cc ra ro db tb lw lc dr rd targets w a s host port Hq Hf.
    apply status_main_raise; [exact Hq|]. unfold status_checks_all, status_checks.
    destruct Hf as [(Hon & sl & e & Hsl & Hm)|
                   [(Hon & e & Hu)|
                   [(Hon & Hw & Hc & e & Hs)|
                   [(Hon & e & Ht)|
                   [(Hon & tables & name & schema & e & Ht & Hin & Hl)|
                   [(Hon & e & Hd)|
                   (Hon & t & e & Hin & Hd)]]]]]].
    + apply py_bind_raises; intros s1. rewrite Hon. simpl.
      unfold check_replication. rewrite Hsl, Hm. simpl. eauto.
    + do 3 (apply py_bind_raises; intros ?). rewrite Hon. simpl.
      unfold check_user_connections. rewrite Hu. simpl. eauto.
    + do 5 (apply py_bind_raises; intros ?). rewrite Hon. simpl.
      unfold check_slave_connections.
      apply Z.eqb_neq in Hw, Hc. rewrite Hw, Hc. simpl. rewrite Hs. simpl. eauto.
    + do 6 (apply py_bind_raises; intros ?). rewrite Hon. simpl.
      unfold check_liquibase. rewrite Ht. simpl. eauto.
    + do 6 (apply py_bind_raises; intros ?). rewrite Hon. simpl.
      unfold check_liquibase. rewrite Ht. simpl.
      destruct tables as [|t ts]; [destruct Hin|].
      destruct (collect_locks_raises ro (t :: ts) name schema e Hin Hl) as [e' He'].
      rewrite He'. simpl. eauto.
    + do 7 (apply py_bind_raises; intros ?). rewrite Hon. simpl.
      unfold check_definer, definer_broken. rewrite Hd. simpl. eauto.
    + do 7 (apply py_bind_raises; intros ?). rewrite Hon. simpl.
      assert (Hb : exists e', definer_broken rd targets = Raise e').
      { unfold definer_broken. apply py_bind_raises. intros users.
        apply (py_fold_raises _ _ t); [exact Hin|]. intros b'. rewrite Hd. simpl. eauto. }
      destruct Hb as [e' He']. unfold check_definer. rewrite He'. simpl. eauto.
Qed.

Lemma check_failure_isolation_witness :
  (a_check_user_connections user_and_slave_args = true /\
   w_user_count processlist_denied_world
     (user_connections_query (a_user_connections_filter user_and_slave_args))
     = Raise processlist_denied /\
   status bytes_text pass_check pass_check pass_check processlist_denied_world
          user_and_slave_args server_init <> Ok ([], 0%nat)) /\
  exists e, status_all bytes_text 85 (VInt 95) (fun _ => Ok []) (fun _ => Ok None) ""
              "DATABASECHANGELOGLOCK" 900 3600 (fun _ => "{}") (fun _ => Ok []) []
              processlist_denied_world user_and_slave_args server_init = Raise e /\
    main (Ok server_init)
      (status_all bytes_text 85 (VInt 95) (fun _ => Ok []) (fun _ => Ok None) ""
         "DATABASECHANGELOGLOCK" 900 3600 (fun _ => "{}") (fun _ => Ok []) []
         processlist_denied_world user_and_slave_args) "db-replica" "3306" = Raise e.
Proof.
  split.
  - split; [reflexivity|split; [reflexivity|]].
    exact (proj1 check_failure_isolation bytes_text pass_check pass_check pass_check
             processlist_denied_world user_and_slave_args server_init processlist_denied
             ([], 0%nat) eq_refl eq_refl).
  - apply (proj2 (proj2 (proj2 check_failure_isolation))).
    + split; [intros logs H; discriminate H|].
      split; [intros q; exact I|]. split; [exact I|].
      split; [intros q; exact I|]. split; intros q; exact I.
    + right; left. split; [reflexivity|]. exists processlist_denied. reflexivity.
Defined.

(** C5 (amended): only the slave-host check treats -1 as "disabled": with
    either bound at -1 it returns without querying or recording anything.
    Every other check with bounds evaluates -1 like any other bound. The
    thread-usage check with bounds (-1, -1) and a non-zero concurrency
    appends a perf datum and records CRITICAL; the user-connection check
    with bounds (-1, -1) appends a perf datum and an OK message; the
    replication check with its four bounds at -1, on a slave whose lag is
    computed, appends both perf data and records CRITICAL; the connection
    check with warning -1 appends a perf datum and records at least
    WARNING, and CRITICAL when the critical bound is the int -1; the
    liquibase check with bounds (-1, -1) reports every lock it finds as
    critical and as warning and records CRITICAL. *)
Theorem minus_one_bounds_only_skip_slave_hosts :
  (forall (slave_hosts : py Z) (warning critical : Z) (s : server),
     warning = -1 \/ critical = -1 ->
     check_slave_connections slave_hosts warning critical s = Ok s) /\
  (forall (stv vars : variables) (s : server) (rs cs : string) (r c : Z),
     stv !! "Threads_running" = Some rs -> py_int rs = Ok r ->
     vars !! "innodb_thread_concurrency" = Some cs -> py_int cs = Ok c ->
     0 <= r -> 0 < c ->
     exists s', check_threads_usage stv vars (-1) (-1) s = Ok s' /\
       _state s' = Nat.max (_state s) state_critical /\
       length (_perf_data s') = S (length (_perf_data s))) /\
  (forall (q : string -> py Z) (u al : string) (s : server) (cnt : Z),
     q (user_connections_query u) = Ok cnt -> 0 <= cnt ->
     exists s', check_user_connections q u al (-1) (-1) s = Ok s' /\
       _state s' = _state s /\
       length (msgs_ok s') = S (length (msgs_ok s)) /\
       length (_perf_data s') = S (length (_perf_data s))) /\
  (forall (ps : Z -> string) (vars : variables) (sl : slave_status) (m : master_conn)
          (ig : bool) (s : server) (lag_bytes : Z),
     _get_replication_lag vars sl m = Ok lag_bytes ->
     -1 <= lag_seconds_of sl ->
     exists s', check_replication ps vars (Some sl) m (-1) (-1) (-1) (-1) ig s = Ok s' /\
       (state_critical <= _state s')%nat /\
       length (_perf_data s') = (length (_perf_data s) + 2)%nat) /\
  (forall (st vars : variables) (critical : pyval) (s : server) (tc mc : Z),
     get_float0 st "Threads_connected" = Ok tc -> 0 <= tc ->
     get_float0 vars "max_connections" = Ok mc -> 0 < mc ->
     exists s', check_connections st vars (-1) critical s = Ok s' /\
       (state_warning <= _state s')%nat /\
       (critical = VInt (-1) -> (state_critical <= _state s')%nat) /\
       length (_perf_data s') = S (length (_perf_data s))) /\
  (forall run_all run_one (database table : string) (s s' : server) tables
          (name schema : string) (r : lock_row),
     run_all (liquibase_tables_query database table) = Ok tables ->
     In (name, schema) tables ->
     run_one (liquibase_lock_query schema name) = Ok (Some r) ->
     0 <= SECONDS r ->
     check_liquibase run_all run_one database table (-1) (-1) s = Ok s' ->
     In (liquibase_lock_msg (r, schema)) (msgs_critical s') /\
     In (liquibase_lock_msg (r, schema)) (msgs_warning s') /\
     (state_critical <= _state s')%nat).
Proof.
  split; [|split; [|split; [|split; [|split]]]].
  - intros sh w c s [-> | ->]; unfold check_slave_connections; simpl.
    + reflexivity.
    + rewrite orb_true_r. reflexivity.
  - intros stv vars s rs cs r c Hr Hpr Hc Hpc Hr0 Hc0.
    unfold check_threads_usage. rewrite Hr. simpl. rewrite Hpr. simpl.
    unfold var_get. rewrite Hc. simpl. rewrite Hpc. simpl.
    destruct (Z.eqb_spec c 0) as [|_]; [lia|].
    match goal with
    | |- context [round2_centi ?x] =>
        assert (Hu : 0 <= round2_centi x);
        [apply round2_centi_nonneg|set (u := round2_centi x) in *]
    end.
    { apply Qmult_le_0_compat; [|unfold Qle; simpl; lia].
      unfold Qdiv. apply Qmult_le_0_compat.
      - change (Qle (inject_Z 0) (inject_Z r)). rewrite <- Zle_Qle. exact Hr0.
      - apply Qinv_le_0_compat. change (Qle (inject_Z 0) (inject_Z c)).
        rewrite <- Zle_Qle. lia. }
    destruct (Z.leb_spec (-1 * 100) u); [|lia].
    eexists; split; [reflexivity|]. split.
    + rewrite _set_state_max. reflexivity.
    + rewrite (proj2 (proj2 (proj2 (_set_state_keeps _ _)))). simpl.
      rewrite length_app. simpl. lia.
  - intros q u al s cnt Hq Hc.
    unfold check_user_connections. rewrite Hq. simpl.
    destruct (Z.leb_spec cnt (-1)); [lia|]. simpl.
    eexists; split; [reflexivity|]. simpl.
    rewrite !length_app. simpl. split; [reflexivity|]. split; lia.
  - intros ps vars sl m ig s lb Hl Hs.
    rewrite (check_replication_stages _ _ _ _ _ _ _ _ _ _ _ Hl).
    eexists; split; [reflexivity|].
    unfold stage_seconds at 1 2.
    destruct (Z.leb_spec (-1) (lag_seconds_of sl)) as [_|]; [|lia].
    rewrite _set_state_max, set_state_perf_data, perf_data_append_critical. split.
    { apply Nat.le_max_r. }
    rewrite stage_bytes_perf, stage_ro_perf, stage_io_perf, stage_sql_perf.
    autorewrite with server. rewrite !length_app. cbn [length]. lia.
  - intros st vars cv s tc mc Ht Ht0 Hm Hm0.
    unfold check_connections. rewrite Ht. cbn [py_bind]. rewrite Hm. cbn [py_bind].
    destruct (Z.eqb_spec mc 0) as [|_]; [lia|].
    pose proof (usage_nonneg tc mc Ht0 Hm0) as Hu.
    set (u := round2_centi _) in *.
    destruct (Z.leb_spec (-1 * 100) u) as [_|]; [|lia].
    destruct (py2_ge_centi u cv) eqn:Eg.
    + eexists; split; [reflexivity|]. autorewrite with server.
      rewrite length_app. cbn [length]. unfold state_warning, state_critical.
      repeat split; lia.
    + eexists; split; [reflexivity|]. autorewrite with server.
      rewrite length_app. cbn [length]. unfold state_warning, state_critical.
      split; [lia|]. split; [|lia].
      intros ->. simpl in Eg. apply Z.leb_gt in Eg. lia.
  - intros run_all run_one database table s s' tables name schema r Ht Hin Hq H0.
    unfold check_liquibase. rewrite Ht. simpl.
    destruct tables as [|t ts]; [destruct Hin|].
    destruct (collect_locks run_one (t :: ts)) as [locks|] eqn:El; [|discriminate]. simpl.
    intros [= <-].
    pose proof (collect_locks_in _ _ _ _ _ _ Hin Hq El) as Hl.
    assert (Hr : -1 <= SECONDS (fst (r, schema))) by (simpl; lia).
    destruct (liquibase_fold_reports (-1) (-1) locks _ s Hl Hr Hr) as (H1 & H2 & H3).
    autorewrite with server.
    destruct (Nat.eqb _ _); autorewrite with server; auto.
Qed.

Lemma minus_one_bounds_only_skip_slave_hosts_witness :
  check_slave_connections (Ok 1) (-1) 0 server_init = Ok server_init /\
  exists s', check_connections (w_status lagging_world) (w_variables lagging_world)
               (-1) (VInt (-1)) server_init = Ok s' /\
    (state_critical <= _state s')%nat.
Proof.
  split.
  - exact (proj1 minus_one_bounds_only_skip_slave_hosts (Ok 1) (-1) 0 server_init
             (or_introl eq_refl)).
  - destruct (proj1 (proj2 (proj2 (proj2 (proj2 minus_one_bounds_only_skip_slave_hosts))))
                (w_status lagging_world) (w_variables lagging_world) (VInt (-1)) server_init
                50 200 ltac:(vm_compute; reflexivity) ltac:(lia)
                ltac:(vm_compute; reflexivity) ltac:(lia)) as (s' & H1 & _ & H3 & _).
    exists s'. split; [exact H1|]. apply H3. reflexivity.
Defined.
